(** * XhrPlugin: a shallow embedding of [src/plugins/event-plugins/XhrPlugin.ts]

    The plugin monkey-patches [XMLHttpRequest.prototype.open] and
    [XMLHttpRequest.prototype.send], keeps a [Map] from request objects to
    tracking records, and records X-Ray trace events and HTTP events from
    four terminal listeners.  The embedding threads one [World] value
    through a small state-and-exception monad [Js]; the request objects of
    the host live in a heap indexed by their identity. *)

From Stdlib Require Import ZArith NArith String Ascii List Bool Lia.
From Stdlib Require Import DecimalString DecimalPos DecimalN.
From stdpp Require Import base option list gmap strings.

Local Open Scope string_scope.

(** ** JavaScript built-ins used by the plugin *)

Module JS.

(** [StrWhiteSpaceChar] restricted to the code units a header value (a
    byte string) can hold: TAB, LF, VT, FF, CR, SP and NBSP. *)
Definition isWhiteSpace (c : ascii) : bool :=
  let n := nat_of_ascii c in
  Nat.eqb n 9 || Nat.eqb n 10 || Nat.eqb n 11 || Nat.eqb n 12 ||
  Nat.eqb n 13 || Nat.eqb n 32 || Nat.eqb n 160.

Fixpoint trimStart (s : string) : string :=
  match s with
  | String c s' => if isWhiteSpace c then trimStart s' else s
  | EmptyString => EmptyString
  end.

(** Value of a radix-10 digit, or [None] for any other code unit. *)
Definition digit (c : ascii) : option Z :=
  let n := Z.of_nat (nat_of_ascii c) in
  if (48 <=? n)%Z && (n <=? 57)%Z then Some (n - 48)%Z else None.

(** The longest prefix of [s] made of radix-10 digits. *)
Fixpoint digits (s : string) : list Z :=
  match s with
  | String c s' => match digit c with
                   | Some d => d :: digits s'
                   | None => []
                   end
  | EmptyString => []
  end.

Definition mathInt (ds : list Z) : Z :=
  fold_left (fun acc d => (10 * acc + d)%Z) ds 0%Z.

(** The sign of the literal and the text after the sign. *)
Definition splitSign (s : string) : Z * string :=
  match s with
  | String "-" s' => ((-1)%Z, s')
  | String "+" s' => (1%Z, s')
  | _ => (1%Z, s)
  end.

(** A Number that is NaN or the Number value of an integer.  [Int z] stands
    for the double nearest to the integer [z]: [z] itself up to 2^53 in
    magnitude, and an infinity from about 1.8e308 on.  That rounding is not
    computed here, so [Int z] tells which integer was read and not which
    double it became, and the two zeros are the one [Int 0]. *)
Inductive number := NaN | Int (z : Z).

(** [parseInt(string, 10)]: leading white space is skipped, a sign is read,
    then the longest run of decimal digits; without a digit the result is
    NaN.  With radix 10 no [0x] prefix is stripped.  The language returns
    the Number value of the sign times the digits read, which is [Int] of
    that integer as explained above: whether the result is NaN is exact,
    its value is exact up to 2^53 in magnitude. *)
Definition parseInt (inputString : string) : number :=
  let '(sign, rest) := splitSign (trimStart inputString) in
  match digits rest with
  | [] => NaN
  | ds => Int (sign * mathInt ds)
  end.

Definition isNaN (n : number) : bool :=
  match n with NaN => true | Int _ => false end.

(** [ToString] of a value that is a string or [null]. *)
Definition ToString (v : option string) : string :=
  match v with Some s => s | None => "null" end.

(** [Number.prototype.toString()] of a non-negative integer. *)
Definition toString (n : N) : string := NilEmpty.string_of_uint (N.to_uint n).

(** Truthiness of a string: only the empty string is falsy. *)
Definition truthy (s : string) : bool :=
  match s with EmptyString => false | _ => true end.

End JS.

(** ** Data model *)

(** A request object is identified by its heap address; the [Map] of the
    plugin is keyed by that identity. *)
Abbreviation Handle := positive.

Module HttpPluginConfig.
(** Modelled from the spec: [HttpPluginConfig] is declared in
    [utils/http-utils], which is not among the sources; section 6 of the spec
    lists the options.  The two pattern lists are read only by the URL
    filter. *)
Record t := mk {
  recordAllRequests : bool;
  addXRayTraceIdHeader : bool;
  logicalServiceName : string;
  stackTraceLength : Z;
  urlsToInclude : list string;
  urlsToExclude : list string
}.
End HttpPluginConfig.

Module Session.
Record t := mk { record : bool }.
End Session.

Module Http.
Record Request := mkRequest { method : string; traced : bool }.
Record Response := mkResponse { status : N; content_length : option JS.number }.
Record t := mk { request : Request; response : option Response }.
Definition set_response (r : option Response) (h : t) : t :=
  mk (request h) r.
Definition set_content_length (n : JS.number) (r : Response) : Response :=
  mkResponse (status r) (Some n).
End Http.

Module Subsegment.
Record Exception := mkException { type : string; message : option string }.
Record Cause := mkCause { exceptions : list Exception }.
Record t := mk {
  id : string;
  name : string;
  start_time : Z;
  end_time : option Z;
  http : Http.t;
  error : option bool;
  cause : option Cause
}.
Definition set_end_time (e : Z) (s : t) : t :=
  mk (id s) (name s) (start_time s) (Some e) (http s) (error s) (cause s).
Definition set_http (h : Http.t) (s : t) : t :=
  mk (id s) (name s) (start_time s) (end_time s) h (error s) (cause s).
Definition set_error (b : bool) (s : t) : t :=
  mk (id s) (name s) (start_time s) (end_time s) (http s) (Some b) (cause s).
Definition set_cause (c : Cause) (s : t) : t :=
  mk (id s) (name s) (start_time s) (end_time s) (http s) (error s) (Some c).
End Subsegment.

Module XRayTraceEvent.
Record t := mk {
  name : string;
  id : string;
  trace_id : string;
  start_time : Z;
  end_time : option Z;
  subsegments : list Subsegment.t
}.
Definition set_end_time (e : Z) (x : t) : t :=
  mk (name x) (id x) (trace_id x) (start_time x) (Some e) (subsegments x).
Definition set_subsegments (l : list Subsegment.t) (x : t) : t :=
  mk (name x) (id x) (trace_id x) (start_time x) (end_time x) l.
End XRayTraceEvent.

Module XhrDetails.
Record t := mk {
  method : string;
  url : string;
  async : bool;
  trace : option XRayTraceEvent.t
}.
Definition set_trace (x : option XRayTraceEvent.t) (d : t) : t :=
  mk (method d) (url d) (async d) x.
End XhrDetails.

(** The value handed to the error normaliser: an [XhrError] object built
    from a message, or a string primitive. *)
Inductive ErrorValue :=
| XhrError (message : string)
| StringValue (s : string).

Module ErrorEvent.
Record t := mk { type : string; error : ErrorValue }.
End ErrorEvent.

(** Modelled from the spec: [errorEventToJsErrorEvent] lives in
    [utils/js-error-utils], which is not among the sources; the spec
    (section 6) says only that it turns a raw error value and a stack-length
    limit into the error description of an HTTP event.  Its result is kept
    as the application to its two arguments. *)
Inductive JSErrorEvent :=
| errorEventToJsErrorEvent (errorEvent : ErrorEvent.t) (stackTraceLength : Z).

Module HttpEvent.
Record Request := mkRequest { method : string }.
Record Response := mkResponse { status : N; statusText : string }.
Record t := mk {
  version : string;
  request : Request;
  response : option Response;
  error : option JSErrorEvent
}.
Definition set_error (e : JSErrorEvent) (h : t) : t :=
  mk (version h) (request h) (response h) (Some e).
End HttpEvent.

Inductive EventType := HTTP_EVENT_TYPE | XRAY_TRACE_EVENT_TYPE.

Inductive EventData :=
| HttpData (e : HttpEvent.t)
| TraceData (x : XRayTraceEvent.t).

(** Names of the four terminal events and identities of the listeners.
    [Foreign] stands for a listener of the application.  It takes a place
    in the list of listeners of an object; what such a listener does when
    it is called (it may itself call [open] or [send]) is not represented. *)
Inductive EventName := load | error | abort | timeout.

Inductive Callback :=
| HandleXhrLoadEvent
| HandleXhrErrorEvent
| HandleXhrAbortEvent
| HandleXhrTimeoutEvent
| Foreign (n : nat).

#[global] Instance EventName_eq_dec : EqDecision EventName.
Proof. solve_decision. Defined.
#[global] Instance Callback_eq_dec : EqDecision Callback.
Proof. solve_decision. Defined.

Module XMLHttpRequest.
(** The part of the host object the plugin reads or writes. *)
Record t := mk {
  status : N;
  statusText : string;
  getResponseHeader : string -> option string;
  listeners : list (EventName * Callback);
  requestHeaders : list (string * string)
}.

(** A request object nobody has touched yet. *)
Definition fresh : t := mk 0 EmptyString (fun _ => None) [] [].

(** [addEventListener]: a listener already registered for the same event is
    not added a second time. *)
Definition addEventListener (ty : EventName) (cb : Callback) (x : t) : t :=
  if decide ((ty, cb) ∈ listeners x) then x
  else mk (status x) (statusText x) (getResponseHeader x)
          (listeners x ++ [(ty, cb)]) (requestHeaders x).

(** [setRequestHeader] where it returns: the pair joins the author request
    headers.  The host throws an [InvalidStateError] unless the object is
    opened and not yet sent; that path is not represented. *)
Definition setRequestHeader (k v : string) (x : t) : t :=
  mk (status x) (statusText x) (getResponseHeader x) (listeners x)
     (requestHeaders x ++ [(k, v)]).

(** What the network reports on the object before a terminal event. *)
Definition respond (st : N) (txt : string) (hdr : string -> option string)
  (x : t) : t :=
  mk st txt hdr (listeners x) (requestHeaders x).
End XMLHttpRequest.

(** The native methods wrapped by the plugin, where they return: they act
    on their receiver.  What they throw (the host refuses a malformed method
    or URL in [open], and a [send] on an object that is not opened) passes
    through the wrappers to the caller and is not represented. *)
Definition Send : Type := XMLHttpRequest.t -> XMLHttpRequest.t.
Definition Open : Type :=
  string -> string -> bool -> XMLHttpRequest.t -> XMLHttpRequest.t.

(** ** The world: plugin fields, plugin context and host *)

Record World := mkWorld {
  config : HttpPluginConfig.t;              (* this.config *)
  enableXRay : bool;                        (* this.context.config.enableXRay *)
  getSession : option Session.t;            (* this.context.getSession() *)
  xhrMap : gmap positive XhrDetails.t;      (* this.xhrMap *)
  recorded : list (EventType * EventData);  (* calls of this.context.record *)
  heap : gmap positive XMLHttpRequest.t;    (* the request objects *)
  clock : Z;                                (* the epoch-time source *)
  draws : nat                               (* identifiers generated so far *)
}.

Definition set_xhrMap (m : gmap positive XhrDetails.t) (w : World) : World :=
  mkWorld (config w) (enableXRay w) (getSession w) m (recorded w) (heap w)
          (clock w) (draws w).
Definition set_recorded (l : list (EventType * EventData)) (w : World) : World :=
  mkWorld (config w) (enableXRay w) (getSession w) (xhrMap w) l (heap w)
          (clock w) (draws w).
Definition set_heap (h : gmap positive XMLHttpRequest.t) (w : World) : World :=
  mkWorld (config w) (enableXRay w) (getSession w) (xhrMap w) (recorded w) h
          (clock w) (draws w).
Definition set_clock (c : Z) (w : World) : World :=
  mkWorld (config w) (enableXRay w) (getSession w) (xhrMap w) (recorded w)
          (heap w) c (draws w).
Definition set_draws (n : nat) (w : World) : World :=
  mkWorld (config w) (enableXRay w) (getSession w) (xhrMap w) (recorded w)
          (heap w) (clock w) n.
Definition set_getSession (s : option Session.t) (w : World) : World :=
  mkWorld (config w) (enableXRay w) s (xhrMap w) (recorded w) (heap w)
          (clock w) (draws w).

(** The object behind a handle. *)
Definition deref (w : World) (xhr : Handle) : XMLHttpRequest.t :=
  default XMLHttpRequest.fresh (heap w !! xhr).

(** ** The [Js] monad: state with exceptions *)

Inductive JsError := TypeError (msg : string).

Inductive Outcome (A : Type) : Type :=
| Return (a : A) (w : World)
| Throw (e : JsError) (w : World).
Arguments Return {A} a w.
Arguments Throw {A} e w.

Definition Js (A : Type) : Type := World -> Outcome A.

#[global] Instance Js_ret : MRet Js := fun A a w => Return a w.
#[global] Instance Js_bind : MBind Js := fun A B f m w =>
  match m w with
  | Return a w' => f a w'
  | Throw e w' => Throw e w'
  end.

Definition gets {A} (f : World -> A) : Js A := fun w => Return (f w) w.
Definition modify (f : World -> World) : Js unit := fun w => Return tt (f w).
Definition throw {A} (e : JsError) : Js A := fun w => Throw e w.

(** The world an outcome ends in. *)
Definition world_of {A} (o : Outcome A) : World :=
  match o with Return _ w => w | Throw _ w => w end.

(** ** Helpers imported from [utils/http-utils] *)

(** The URL filter, the host-name parser, the header formatter, the header
    name and the identifier generators are imported by the plugin; their
    code is not among the sources, so the plugin is verified for any
    implementation of them. *)
Class HttpUtils := {
  isUrlAllowed : string -> HttpPluginConfig.t -> bool;
  requestInfoToHostname : string -> string;
  getAmznTraceIdHeaderValue : string -> string -> string;
  X_AMZN_TRACE_ID : string;
  generateTraceId : nat -> string;
  generateSegmentId : nat -> string
}.

Section Plugin.
Context `{HttpUtils}.

(** Modelled from the spec: [epochTime] is not among the sources; section
    4.4 of the spec asks for one monotonic-enough epoch-time source shared
    by every call site.  A call reads the clock of the world, and the only
    action on the clock, [Tick], moves it forward. *)
Definition epochTime : Js Z := gets clock.

Definition draw (gen : nat -> string) : Js string := fun w =>
  Return (gen (draws w)) (set_draws (S (draws w)) w).

(** Modelled from the spec: [createXRayTraceEvent] is not among the
    sources; by section 3 of the spec a trace record is a root span with
    [id], [trace_id], [start_time], an [end_time] that is absent until the
    trace is finalised, and the list of its subsegments, to which the
    plugin pushes the only one. *)
Definition createXRayTraceEvent (name : string) (startTime : Z)
  : Js XRayTraceEvent.t :=
  id ← draw generateSegmentId;
  trace_id ← draw generateTraceId;
  mret (XRayTraceEvent.mk name id trace_id startTime None []).

(** Modelled from the spec: [createXRaySubsegment] is not among the
    sources; by section 3 of the spec a subsegment carries [id], [name],
    [start_time], the [http] description it is given, and no [end_time],
    [error] or [cause] until the request ends. *)
Definition createXRaySubsegment (name : string) (startTime : Z) (http : Http.t)
  : Js Subsegment.t :=
  id ← draw generateSegmentId;
  mret (Subsegment.mk id name startTime None http None None).

(** ** Access to the host object and to a tracking record

    A tracking record is a mutable object held by [xhrMap] alone, so a
    reference to it is the handle it is stored under; every write through
    the reference updates the entry of the map. *)

Definition heap_set (xhr : Handle) (o : XMLHttpRequest.t) (w : World) : World :=
  set_heap (<[xhr := o]> (heap w)) w.

(** A method of the host object called on [xhr]. *)
Definition onXhr (xhr : Handle) (f : XMLHttpRequest.t -> XMLHttpRequest.t)
  : Js unit :=
  modify (fun w => heap_set xhr (f (deref w xhr)) w).

Definition xhrMap_get (xhr : Handle) : Js (option XhrDetails.t) :=
  gets (fun w => xhrMap w !! xhr).

(** [this.xhrMap.set(xhr, d)] *)
Definition xhrMap_set (xhr : Handle) (d : XhrDetails.t) (w : World) : World :=
  set_xhrMap (<[xhr := d]> (xhrMap w)) w.

(** Reading a property of [undefined] throws a [TypeError]. *)
Definition readDetails (xhr : Handle) : Js XhrDetails.t := fun w =>
  match xhrMap w !! xhr with
  | Some d => Return d w
  | None => Throw (TypeError "xhrDetails is undefined") w
  end.

Definition readTrace (xhr : Handle) : Js XRayTraceEvent.t :=
  d ← readDetails xhr;
  match XhrDetails.trace d with
  | Some x => mret x
  | None => throw (TypeError "xhrDetails.trace is undefined")
  end.

Definition readSubsegment0 (xhr : Handle) : Js Subsegment.t :=
  x ← readTrace xhr;
  match XRayTraceEvent.subsegments x with
  | s :: _ => mret s
  | [] => throw (TypeError "xhrDetails.trace.subsegments[0] is undefined")
  end.

Definition writeTrace (xhr : Handle) (x : XRayTraceEvent.t) : Js unit :=
  d ← readDetails xhr;
  modify (xhrMap_set xhr (XhrDetails.set_trace (Some x) d)).

(** [xhrDetails.trace.f = v] *)
Definition assignTrace (xhr : Handle)
  (f : XRayTraceEvent.t -> XRayTraceEvent.t) : Js unit :=
  x ← readTrace xhr;
  writeTrace xhr (f x).

(** [xhrDetails.trace.subsegments[0].f = v] *)
Definition assignSubsegment0 (xhr : Handle)
  (f : Subsegment.t -> Subsegment.t) : Js unit :=
  x ← readTrace xhr;
  match XRayTraceEvent.subsegments x with
  | s :: rest => writeTrace xhr (XRayTraceEvent.set_subsegments (f s :: rest) x)
  | [] => throw (TypeError "xhrDetails.trace.subsegments[0] is undefined")
  end.

(** [xhrDetails.trace.subsegments[0].http.f = v] *)
Definition assignHttp0 (xhr : Handle) (f : Http.t -> Http.t) : Js unit :=
  assignSubsegment0 xhr (fun s => Subsegment.set_http (f (Subsegment.http s)) s).

(** [xhrDetails.trace.subsegments[0].http.response.f = v] *)
Definition assignResponse0 (xhr : Handle) (f : Http.Response -> Http.Response)
  : Js unit :=
  s ← readSubsegment0 xhr;
  match Http.response (Subsegment.http s) with
  | Some r => assignHttp0 xhr (Http.set_response (Some (f r)))
  | None => throw (TypeError "http.response is undefined")
  end.

(** ** The plugin *)

Definition addXRayTraceIdHeader : Js bool :=
  gets (fun w => HttpPluginConfig.addXRayTraceIdHeader (config w)).

Definition isTracingEnabled : Js bool := gets enableXRay.

(** [this.context.getSession()?.record || false] *)
Definition isSessionRecorded : Js bool :=
  gets (fun w => match getSession w with
                 | Some s => Session.record s || false
                 | None => false
                 end).

(** [this.context.record(type, data)]: the sink receives the value the
    payload has at the time of the call. *)
Definition context_record (ty : EventType) (data : EventData) : Js unit :=
  modify (fun w => set_recorded (recorded w ++ [(ty, data)]) w).

Definition statusOk (status : N) : bool :=
  (200 <=? status)%N && (status <? 300)%N.

Definition recordHttpEventWithResponse (xhrDetails xhr : Handle) : Js unit :=
  recordAllRequests ← gets (fun w => HttpPluginConfig.recordAllRequests (config w));
  status ← gets (fun w => XMLHttpRequest.status (deref w xhr));
  if recordAllRequests || negb (statusOk status) then
    d ← readDetails xhrDetails;
    statusText ← gets (fun w => XMLHttpRequest.statusText (deref w xhr));
    context_record HTTP_EVENT_TYPE
      (HttpData (HttpEvent.mk "1.0.0"
                   (HttpEvent.mkRequest (XhrDetails.method d))
                   (Some (HttpEvent.mkResponse status statusText))
                   None))
  else mret tt.

Definition recordHttpEventWithError (xhrDetails : Handle) (error : ErrorValue)
  : Js unit :=
  d ← readDetails xhrDetails;
  let httpEvent :=
    HttpEvent.mk "1.0.0" (HttpEvent.mkRequest (XhrDetails.method d)) None None in
  stackTraceLength ← gets (fun w => HttpPluginConfig.stackTraceLength (config w));
  let httpEvent :=
    HttpEvent.set_error
      (errorEventToJsErrorEvent (ErrorEvent.mk "error" error) stackTraceLength)
      httpEvent in
  context_record HTTP_EVENT_TYPE (HttpData httpEvent).

Definition recordTraceEvent (trace : XRayTraceEvent.t) : Js unit :=
  tracing ← isTracingEnabled;
  sampled ← isSessionRecorded;
  if tracing && sampled then
    context_record XRAY_TRACE_EVENT_TYPE (TraceData trace)
  else mret tt.

Definition handleXhrLoadEvent (xhr : Handle) : Js unit :=
  xhrDetails ← xhrMap_get xhr;
  match xhrDetails with
  | Some _ =>
    endTime ← epochTime;
    assignTrace xhr (XRayTraceEvent.set_end_time endTime);;
    assignSubsegment0 xhr (Subsegment.set_end_time endTime);;
    status ← gets (fun w => XMLHttpRequest.status (deref w xhr));
    assignHttp0 xhr (Http.set_response (Some (Http.mkResponse status None)));;
    header ← gets (fun w => XMLHttpRequest.getResponseHeader (deref w xhr) "Content-Length");
    let cl := JS.parseInt (JS.ToString header) in
    (if negb (JS.isNaN cl) then
       header ← gets (fun w => XMLHttpRequest.getResponseHeader (deref w xhr) "Content-Length");
       assignResponse0 xhr (Http.set_content_length (JS.parseInt (JS.ToString header)))
     else mret tt);;
    trace ← readTrace xhr;
    recordTraceEvent trace;;
    recordHttpEventWithResponse xhr xhr
  | None => mret tt
  end.

Definition handleXhrErrorEvent (xhr : Handle) : Js unit :=
  xhrDetails ← xhrMap_get xhr;
  let errorName := "XMLHttpRequest error" in
  statusText ← gets (fun w => XMLHttpRequest.statusText (deref w xhr));
  status ← gets (fun w => XMLHttpRequest.status (deref w xhr));
  let errorMessage :=
    if JS.truthy statusText
    then JS.toString status ++ ": " ++ statusText
    else JS.toString status in
  match xhrDetails with
  | Some _ =>
    endTime ← epochTime;
    assignTrace xhr (XRayTraceEvent.set_end_time endTime);;
    assignSubsegment0 xhr (Subsegment.set_end_time endTime);;
    assignSubsegment0 xhr (Subsegment.set_error true);;
    assignSubsegment0 xhr (Subsegment.set_cause
      (Subsegment.mkCause [Subsegment.mkException errorName (Some errorMessage)]));;
    trace ← readTrace xhr;
    recordTraceEvent trace;;
    recordHttpEventWithError xhr (XhrError errorMessage)
  | None => mret tt
  end.

Definition handleXhrAbortEvent (xhr : Handle) : Js unit :=
  xhrDetails ← xhrMap_get xhr;
  let errorName := "XMLHttpRequest abort" in
  match xhrDetails with
  | Some _ =>
    endTime ← epochTime;
    assignTrace xhr (XRayTraceEvent.set_end_time endTime);;
    assignSubsegment0 xhr (Subsegment.set_end_time endTime);;
    assignSubsegment0 xhr (Subsegment.set_error true);;
    assignSubsegment0 xhr (Subsegment.set_cause
      (Subsegment.mkCause [Subsegment.mkException errorName None]));;
    trace ← readTrace xhr;
    recordTraceEvent trace;;
    recordHttpEventWithError xhr (StringValue errorName)
  | None => mret tt
  end.

Definition handleXhrTimeoutEvent (xhr : Handle) : Js unit :=
  xhrDetails ← xhrMap_get xhr;
  let errorName := "XMLHttpRequest timeout" in
  match xhrDetails with
  | Some _ =>
    endTime ← epochTime;
    assignTrace xhr (XRayTraceEvent.set_end_time endTime);;
    assignSubsegment0 xhr (Subsegment.set_end_time endTime);;
    assignSubsegment0 xhr (Subsegment.set_error true);;
    assignSubsegment0 xhr (Subsegment.set_cause
      (Subsegment.mkCause [Subsegment.mkException errorName None]));;
    trace ← readTrace xhr;
    recordTraceEvent trace;;
    recordHttpEventWithError xhr (StringValue errorName)
  | None => mret tt
  end.

Definition initializeTrace (xhrDetails : Handle) : Js unit :=
  startTime ← epochTime;
  logicalServiceName ← gets (fun w => HttpPluginConfig.logicalServiceName (config w));
  trace ← createXRayTraceEvent logicalServiceName startTime;
  writeTrace xhrDetails trace;;
  d ← readDetails xhrDetails;
  subsegment ← createXRaySubsegment
    (requestInfoToHostname (XhrDetails.url d)) startTime
    (Http.mk (Http.mkRequest (XhrDetails.method d) true) None);
  assignTrace xhrDetails (fun x =>
    XRayTraceEvent.set_subsegments (XRayTraceEvent.subsegments x ++ [subsegment]) x).

Definition sendWrapper (original : Send) (this : Handle) : Js unit :=
  xhrDetails ← xhrMap_get this;
  match xhrDetails with
  | Some _ =>
    onXhr this (XMLHttpRequest.addEventListener load HandleXhrLoadEvent);;
    onXhr this (XMLHttpRequest.addEventListener error HandleXhrErrorEvent);;
    onXhr this (XMLHttpRequest.addEventListener abort HandleXhrAbortEvent);;
    onXhr this (XMLHttpRequest.addEventListener timeout HandleXhrTimeoutEvent);;
    initializeTrace this;;
    tracing ← isTracingEnabled;
    inject ← addXRayTraceIdHeader;
    sampled ← isSessionRecorded;
    if tracing && inject && sampled then
      trace ← readTrace this;
      subsegment ← readSubsegment0 this;
      onXhr this (XMLHttpRequest.setRequestHeader X_AMZN_TRACE_ID
        (getAmznTraceIdHeaderValue
           (XRayTraceEvent.trace_id trace) (Subsegment.id subsegment)))
    else mret tt
  | None => mret tt
  end;;
  onXhr this original.

Definition openWrapper (original : Open) (this : Handle)
  (method url : string) (async : bool) : Js unit :=
  allowed ← gets (fun w => isUrlAllowed url (config w));
  (if allowed : bool then
     modify (xhrMap_set this (XhrDetails.mk method url async None))
   else mret tt);;
  onXhr this (original method url async).

(** ** The host: dispatching events and running the program *)

(** Calling a listener.  A listener of the application does nothing here:
    its own effects are outside the model. *)
Definition callback (cb : Callback) (xhr : Handle) : Js unit :=
  match cb with
  | HandleXhrLoadEvent => handleXhrLoadEvent xhr
  | HandleXhrErrorEvent => handleXhrErrorEvent xhr
  | HandleXhrAbortEvent => handleXhrAbortEvent xhr
  | HandleXhrTimeoutEvent => handleXhrTimeoutEvent xhr
  | Foreign _ => mret tt
  end.

(** The host calls the listeners of the event in registration order; what a
    listener throws is reported by the host and does not stop the others.
    Listeners of the application are passed over, so the world after
    [dispatchEvent] shows what the plugin's listeners did. *)
Definition dispatchEvent (ty : EventName) (xhr : Handle) (w : World) : World :=
  fold_left (fun w' (l : EventName * Callback) =>
               if decide (l.1 = ty) then world_of (callback l.2 xhr w') else w')
            (XMLHttpRequest.listeners (deref w xhr)) w.

(** What the page and the host can do, one action at a time. *)
Inductive Action :=
| CallOpen (this : Handle) (method url : string) (async : bool)
| CallSend (this : Handle)
| Fire (ty : EventName) (this : Handle)
| Respond (this : Handle) (status : N) (statusText : string)
    (headers : string -> option string)
| Tick (d : N)   (* time passes: the clock moves on by [d], never back *)
| NewSession (s : option Session.t).

Section Run.
Variable nativeOpen : Open.
Variable nativeSend : Send.

Definition exec (a : Action) (w : World) : World :=
  match a with
  | CallOpen this method url async =>
      world_of (openWrapper nativeOpen this method url async w)
  | CallSend this => world_of (sendWrapper nativeSend this w)
  | Fire ty this => dispatchEvent ty this w
  | Respond this st txt hdr =>
      heap_set this (XMLHttpRequest.respond st txt hdr (deref w this)) w
  | Tick d => set_clock (clock w + Z.of_N d) w
  | NewSession s => set_getSession s w
  end.

Definition run (l : list Action) (w : World) : World :=
  fold_left (fun w a => exec a w) l w.

End Run.

(** The world right after [new XhrPlugin(config)] and [load(context)]. *)
Definition initial (cfg : HttpPluginConfig.t) (xray : bool)
  (session : option Session.t) (now : Z) : World :=
  mkWorld cfg xray session ∅ [] ∅ now 0.

End Plugin.

(** ** Vocabulary of the statements *)

(** The first subsegment after a successful end, and after a failed one. *)
Definition succeeded (endTime : Z) (status : N) (cl : option JS.number)
  (s : Subsegment.t) : Subsegment.t :=
  Subsegment.mk (Subsegment.id s) (Subsegment.name s) (Subsegment.start_time s)
    (Some endTime)
    (Http.mk (Http.request (Subsegment.http s)) (Some (Http.mkResponse status cl)))
    (Subsegment.error s) (Subsegment.cause s).

Definition failed (endTime : Z) (ty : string) (msg : option string)
  (s : Subsegment.t) : Subsegment.t :=
  Subsegment.mk (Subsegment.id s) (Subsegment.name s) (Subsegment.start_time s)
    (Some endTime) (Subsegment.http s) (Some true)
    (Some (Subsegment.mkCause [Subsegment.mkException ty msg])).

Definition finalized (endTime : Z) (l : list Subsegment.t)
  (x : XRayTraceEvent.t) : XRayTraceEvent.t :=
  XRayTraceEvent.mk (XRayTraceEvent.name x) (XRayTraceEvent.id x)
    (XRayTraceEvent.trace_id x) (XRayTraceEvent.start_time x) (Some endTime) l.

(** The session exists and is sampled in. *)
Definition sessionRecorded (w : World) : bool :=
  match getSession w with Some s => Session.record s | None => false end.

Definition traceEmission (w : World) (x : XRayTraceEvent.t)
  : list (EventType * EventData) :=
  if enableXRay w && sessionRecorded w
  then [(XRAY_TRACE_EVENT_TYPE, TraceData x)] else [].

(** The [content_length] property after the load handler: absent for NaN. *)
Definition attached (n : JS.number) : option JS.number :=
  match n with JS.NaN => None | JS.Int z => Some (JS.Int z) end.

Definition responseSummary (d : XhrDetails.t) (o : XMLHttpRequest.t) : HttpEvent.t :=
  HttpEvent.mk "1.0.0" (HttpEvent.mkRequest (XhrDetails.method d))
    (Some (HttpEvent.mkResponse (XMLHttpRequest.status o) (XMLHttpRequest.statusText o)))
    None.

Definition errorSummary (d : XhrDetails.t) (e : ErrorValue) (w : World) : HttpEvent.t :=
  HttpEvent.mk "1.0.0" (HttpEvent.mkRequest (XhrDetails.method d)) None
    (Some (errorEventToJsErrorEvent (ErrorEvent.mk "error" e)
             (HttpPluginConfig.stackTraceLength (config w)))).

(** The message of a network error: status and status text. *)
Definition errorMessage (o : XMLHttpRequest.t) : string :=
  if JS.truthy (XMLHttpRequest.statusText o)
  then JS.toString (XMLHttpRequest.status o) ++ ": " ++ XMLHttpRequest.statusText o
  else JS.toString (XMLHttpRequest.status o).

(** The HTTP events and the trace events among recorded events. *)
Definition httpEvents (l : list (EventType * EventData)) : list HttpEvent.t :=
  omap (fun e => match e with
                 | (HTTP_EVENT_TYPE, HttpData h) => Some h
                 | _ => None
                 end) l.

Definition traceEvents (l : list (EventType * EventData)) : list XRayTraceEvent.t :=
  omap (fun e => match e with
                 | (XRAY_TRACE_EVENT_TYPE, TraceData x) => Some x
                 | _ => None
                 end) l.

(** The listener the plugin registers for each terminal event. *)
Definition listener (ty : EventName) : Callback :=
  match ty with
  | load => HandleXhrLoadEvent
  | error => HandleXhrErrorEvent
  | abort => HandleXhrAbortEvent
  | timeout => HandleXhrTimeoutEvent
  end.

(** Every started trace of the store has exactly one subsegment, and neither
    start time is ahead of the clock. *)
Definition started (now : Z) (x : XRayTraceEvent.t) : Prop :=
  exists s, XRayTraceEvent.subsegments x = [s] /\
            (XRayTraceEvent.start_time x <= now)%Z /\
            (Subsegment.start_time s <= now)%Z.

Definition Inv (w : World) : Prop :=
  forall xhr d x, xhrMap w !! xhr = Some d -> XhrDetails.trace d = Some x ->
                  started (clock w) x.

(** The same world with another value of [recordAllRequests]. *)
Definition with_recordAllRequests (b : bool) (w : World) : World :=
  let c := config w in
  mkWorld
    (HttpPluginConfig.mk b (HttpPluginConfig.addXRayTraceIdHeader c)
       (HttpPluginConfig.logicalServiceName c) (HttpPluginConfig.stackTraceLength c)
       (HttpPluginConfig.urlsToInclude c) (HttpPluginConfig.urlsToExclude c))
    (enableXRay w) (getSession w) (xhrMap w) (recorded w) (heap w) (clock w)
    (draws w).

(** The text has an integer literal at its start, after white space and a
    sign. *)
Definition startsWithInteger (v : string) : bool :=
  match (JS.splitSign (JS.trimStart v)).2 with
  | String c _ => match JS.digit c with Some _ => true | None => false end
  | EmptyString => false
  end.

Section Sending.
Context `{HttpUtils}.

(** The trace [initializeTrace] builds for a record at a given time. *)
Definition freshTrace (w : World) (d : XhrDetails.t) : XRayTraceEvent.t :=
  XRayTraceEvent.mk
    (HttpPluginConfig.logicalServiceName (config w))
    (generateSegmentId (draws w))
    (generateTraceId (S (draws w)))
    (clock w) None
    [Subsegment.mk (generateSegmentId (S (S (draws w))))
       (requestInfoToHostname (XhrDetails.url d)) (clock w) None
       (Http.mk (Http.mkRequest (XhrDetails.method d) true) None) None None].

Definition withListeners (o : XMLHttpRequest.t) : XMLHttpRequest.t :=
  XMLHttpRequest.addEventListener timeout HandleXhrTimeoutEvent
    (XMLHttpRequest.addEventListener abort HandleXhrAbortEvent
       (XMLHttpRequest.addEventListener error HandleXhrErrorEvent
          (XMLHttpRequest.addEventListener load HandleXhrLoadEvent o))).

Definition injecting (w : World) : bool :=
  enableXRay w && HttpPluginConfig.addXRayTraceIdHeader (config w)
  && sessionRecorded w.

Definition withHeader (w : World) (d : XhrDetails.t) (o : XMLHttpRequest.t)
  : XMLHttpRequest.t :=
  if injecting w
  then XMLHttpRequest.setRequestHeader X_AMZN_TRACE_ID
         (getAmznTraceIdHeaderValue (generateTraceId (S (draws w)))
            (generateSegmentId (S (S (draws w))))) o
  else o.

End Sending.

(** ** Vocabulary of the further properties *)

(** An HTTP event with version 1.0.0 and either a response or an error. *)
Definition wellFormed (h : HttpEvent.t) : Prop :=
  HttpEvent.version h = "1.0.0" /\
  ((exists r, HttpEvent.response h = Some r) /\ HttpEvent.error h = None \/
   HttpEvent.response h = None /\ exists e, HttpEvent.error h = Some e).

Definition atMostOneTrace (l : list (EventType * EventData)) : Prop :=
  l = [] \/ exists x, l = [(XRAY_TRACE_EVENT_TYPE, TraceData x)].

Definition atMostOneHttp (l : list (EventType * EventData)) : Prop :=
  l = [] \/ exists h, l = [(HTTP_EVENT_TYPE, HttpData h)] /\ wellFormed h.

(** One world comes after another: no record has gone, the recorded events
    have only been appended to, and the clock has not gone back. *)
Definition follows (w w' : World) : Prop :=
  (forall k, is_Some (xhrMap w !! k) -> is_Some (xhrMap w' !! k)) /\
  (exists evs, recorded w' = (recorded w ++ evs)%list) /\
  (clock w <= clock w')%Z.

(** What [send] has added to the listeners an object had: listeners of the
    plugin that were missing, each once. *)
Definition pluginAdded (before added : list (EventName * Callback)) : Prop :=
  NoDup added /\
  forall e, e ∈ added -> (e ∉ before) /\ exists ty, e = (ty, listener ty).

(** The digits of a decimal numeral, most significant first. *)
Fixpoint uintDigits (u : Decimal.uint) : list Z :=
  match u with
  | Decimal.Nil => []
  | Decimal.D0 u => 0%Z :: uintDigits u
  | Decimal.D1 u => 1%Z :: uintDigits u
  | Decimal.D2 u => 2%Z :: uintDigits u
  | Decimal.D3 u => 3%Z :: uintDigits u
  | Decimal.D4 u => 4%Z :: uintDigits u
  | Decimal.D5 u => 5%Z :: uintDigits u
  | Decimal.D6 u => 6%Z :: uintDigits u
  | Decimal.D7 u => 7%Z :: uintDigits u
  | Decimal.D8 u => 8%Z :: uintDigits u
  | Decimal.D9 u => 9%Z :: uintDigits u
  end.

Section Describing.
Context `{HttpUtils}.

(** The trace describes the record it belongs to. *)
Definition describes (w : World) (d : XhrDetails.t) (x : XRayTraceEvent.t) : Prop :=
  exists s,
    XRayTraceEvent.subsegments x = [s] /\
    XRayTraceEvent.name x = HttpPluginConfig.logicalServiceName (config w) /\
    Subsegment.name s = requestInfoToHostname (XhrDetails.url d) /\
    Http.request (Subsegment.http s) =
      Http.mkRequest (XhrDetails.method d) true /\
    Subsegment.start_time s = XRayTraceEvent.start_time x /\
    Subsegment.end_time s = XRayTraceEvent.end_time x.

Definition Described (w : World) : Prop :=
  forall xhr d x, xhrMap w !! xhr = Some d -> XhrDetails.trace d = Some x ->
                  describes w d x.

End Describing.

(** ** A concrete instance, for running the model *)

Module Demo.

(** A filter that rejects the listed URLs, and readable identifiers. *)
Definition utils : HttpUtils := {|
  isUrlAllowed url cfg :=
    negb (existsb (String.eqb url) (HttpPluginConfig.urlsToExclude cfg));
  requestInfoToHostname url := url;
  getAmznTraceIdHeaderValue t s := "Root=" ++ t ++ ";Parent=" ++ s ++ ";Sampled=1";
  X_AMZN_TRACE_ID := "X-Amzn-Trace-Id";
  generateTraceId n := "trace-" ++ JS.toString (N.of_nat n);
  generateSegmentId n := "seg-" ++ JS.toString (N.of_nat n)
|}.

Definition allowedUrl : string := "https://api.example.com/x".
Definition deniedUrl : string := "https://denied.example/y".

Definition cfg (recordAll : bool) : HttpPluginConfig.t :=
  HttpPluginConfig.mk recordAll true "svc" 200 [] [deniedUrl].

Definition nativeOpen : Open := fun _ _ _ o => o.
Definition nativeSend : Send := fun o => o.

Definition contentLength (v : string) : string -> option string :=
  fun h => if String.eqb h "Content-Length" then Some v else None.

(** A page that opens and sends one request at time 1000; the response
    arrives five ticks later. *)
Definition sentWorld : World :=
  run (H := utils) nativeOpen nativeSend
    [CallOpen 1 "GET" allowedUrl true; CallSend 1; Tick 5]
    (initial (cfg false) true (Some (Session.mk true)) 1000).

(** The record of that request, with the trace [send] started. *)
Definition sentSubsegment : Subsegment.t :=
  Subsegment.mk "seg-2" allowedUrl 1000 None
    (Http.mk (Http.mkRequest "GET" true) None) None None.
Definition sentTrace : XRayTraceEvent.t :=
  XRayTraceEvent.mk "svc" "seg-0" "trace-1" 1000 None [sentSubsegment].
Definition sentDetails : XhrDetails.t :=
  XhrDetails.mk "GET" allowedUrl true (Some sentTrace).

Definition answered (status : N) (statusText : string) (cl : string) : World :=
  exec (H := utils) nativeOpen nativeSend
    (Respond 1 status statusText (contentLength cl)) sentWorld.

(** The same request object opened for an allowed URL, opened again for a
    rejected one, and sent. *)
Definition reopenedWorld : World :=
  run (H := utils) nativeOpen nativeSend
    [CallOpen 1 "GET" allowedUrl true; CallOpen 1 "POST" deniedUrl true; CallSend 1]
    (initial (cfg false) true (Some (Session.mk true)) 1000).

End Demo.

(** * Proofs *)

Local Open Scope list_scope.

(** ** Equations of the monad and of the store *)

Lemma bind_eq {A B} (m : Js A) (f : A -> Js B) (w : World) :
  (m ≫= f) w =
  match m w with Return a w' => f a w' | Throw e w' => Throw e w' end.
Proof. reflexivity. Qed.

Lemma ret_eq {A} (a : A) (w : World) : (mret a : Js A) w = Return a w.
Proof. reflexivity. Qed.

Section Store.
Context `{HttpUtils}.

Lemma xhrMap_set_set k d1 d2 w :
  xhrMap_set k d2 (xhrMap_set k d1 w) = xhrMap_set k d2 w.
Proof. unfold xhrMap_set, set_xhrMap; simpl. by rewrite insert_insert_eq. Qed.

Lemma lookup_xhrMap_set k d w : xhrMap (xhrMap_set k d w) !! k = Some d.
Proof. unfold xhrMap_set; simpl. apply lookup_insert_eq. Qed.

Lemma lookup_xhrMap_set_ne k k' d w :
  k ≠ k' -> xhrMap (xhrMap_set k d w) !! k' = xhrMap w !! k'.
Proof. intros. unfold xhrMap_set; simpl. by apply lookup_insert_ne. Qed.

Lemma deref_xhrMap_set k d w h : deref (xhrMap_set k d w) h = deref w h.
Proof. reflexivity. Qed.

Lemma deref_set_draws n w h : deref (set_draws n w) h = deref w h.
Proof. reflexivity. Qed.

Lemma deref_heap_set k o w : deref (heap_set k o w) k = o.
Proof. unfold deref, heap_set; simpl. by rewrite lookup_insert_eq. Qed.

Lemma heap_set_set k o1 o2 w : heap_set k o2 (heap_set k o1 w) = heap_set k o2 w.
Proof. unfold heap_set, set_heap; simpl. by rewrite insert_insert_eq. Qed.

Lemma onXhr_eq xhr f w :
  onXhr xhr f w = Return tt (heap_set xhr (f (deref w xhr)) w).
Proof. reflexivity. Qed.

Lemma readDetails_sent w xhr d :
  xhrMap w !! xhr = Some d -> readDetails xhr w = Return d w.
Proof. intros Hd. unfold readDetails. by rewrite Hd. Qed.

Lemma readTrace_sent w xhr d x :
  xhrMap w !! xhr = Some d -> XhrDetails.trace d = Some x ->
  readTrace xhr w = Return x w.
Proof.
  intros Hd Hx. unfold readTrace.
  rewrite bind_eq, (readDetails_sent _ _ _ Hd), Hx. reflexivity.
Qed.

Lemma readTrace_unsent w xhr d :
  xhrMap w !! xhr = Some d -> XhrDetails.trace d = None ->
  exists e, readTrace xhr w = Throw e w.
Proof.
  intros Hd Hx. unfold readTrace.
  rewrite bind_eq, (readDetails_sent _ _ _ Hd), Hx. by eexists.
Qed.

Lemma readSubsegment0_sent w xhr d x s rest :
  xhrMap w !! xhr = Some d -> XhrDetails.trace d = Some x ->
  XRayTraceEvent.subsegments x = s :: rest ->
  readSubsegment0 xhr w = Return s w.
Proof.
  intros Hd Hx Hs. unfold readSubsegment0.
  rewrite bind_eq, (readTrace_sent _ _ _ _ Hd Hx), Hs. reflexivity.
Qed.

Lemma writeTrace_sent w xhr d x :
  xhrMap w !! xhr = Some d ->
  writeTrace xhr x w =
  Return tt (xhrMap_set xhr (XhrDetails.set_trace (Some x) d) w).
Proof.
  intros Hd. unfold writeTrace.
  rewrite bind_eq, (readDetails_sent _ _ _ Hd). reflexivity.
Qed.

Lemma assignTrace_sent w xhr d x f :
  xhrMap w !! xhr = Some d -> XhrDetails.trace d = Some x ->
  assignTrace xhr f w =
  Return tt (xhrMap_set xhr (XhrDetails.set_trace (Some (f x)) d) w).
Proof.
  intros Hd Hx. unfold assignTrace.
  rewrite bind_eq, (readTrace_sent _ _ _ _ Hd Hx). by apply writeTrace_sent.
Qed.

Lemma assignTrace_unsent w xhr d f :
  xhrMap w !! xhr = Some d -> XhrDetails.trace d = None ->
  exists e, assignTrace xhr f w = Throw e w.
Proof.
  intros Hd Hx. unfold assignTrace. rewrite bind_eq.
  destruct (readTrace_unsent _ _ _ Hd Hx) as [e ->]. by eexists.
Qed.

Lemma assignSubsegment0_sent w xhr d x s rest f :
  xhrMap w !! xhr = Some d -> XhrDetails.trace d = Some x ->
  XRayTraceEvent.subsegments x = s :: rest ->
  assignSubsegment0 xhr f w =
  Return tt
    (xhrMap_set xhr
       (XhrDetails.set_trace
          (Some (XRayTraceEvent.set_subsegments (f s :: rest) x)) d) w).
Proof.
  intros Hd Hx Hs. unfold assignSubsegment0.
  rewrite bind_eq, (readTrace_sent _ _ _ _ Hd Hx), Hs. by apply writeTrace_sent.
Qed.

Lemma recordTraceEvent_eq x w :
  recordTraceEvent x w =
  Return tt (set_recorded (recorded w ++ traceEmission w x) w).
Proof.
  unfold recordTraceEvent, traceEmission, sessionRecorded, isTracingEnabled,
    isSessionRecorded, gets.
  rewrite !bind_eq.
  destruct w as [c e [[r]|] m l h k n]; simpl; rewrite ?orb_false_r;
    destruct e; try destruct r; simpl; rewrite ?app_nil_r; reflexivity.
Qed.

End Store.

Ltac side :=
  first [ eassumption | apply lookup_xhrMap_set | reflexivity
        | (simpl; eassumption) ].

Ltac js_step :=
  first
  [ rewrite bind_eq
  | rewrite ret_eq
  | rewrite recordTraceEvent_eq
  | rewrite onXhr_eq
  | rewrite xhrMap_set_set
  | rewrite heap_set_set
  | rewrite deref_xhrMap_set
  | rewrite deref_set_draws
  | rewrite deref_heap_set
  | erewrite assignTrace_sent by side
  | erewrite assignSubsegment0_sent by side
  | erewrite writeTrace_sent by side
  | erewrite readTrace_sent by side
  | erewrite readSubsegment0_sent by side
  | erewrite readDetails_sent by side ];
  cbv beta iota.

Ltac js_run := repeat js_step.

Ltac js_done :=
  unfold traceEmission, sessionRecorded, freshTrace, xhrMap_set, heap_set,
    set_recorded, set_xhrMap, set_heap, set_draws;
  simpl; rewrite ?insert_insert_eq, ?app_nil_r, <- ?app_assoc; reflexivity.

(** ** What each listener does, in closed form *)

Section Handlers.
Context `{HttpUtils}.

Lemma handleXhrLoadEvent_sent w xhr d x s rest :
  xhrMap w !! xhr = Some d -> XhrDetails.trace d = Some x ->
  XRayTraceEvent.subsegments x = s :: rest ->
  let o := deref w xhr in
  let cl := JS.parseInt (JS.ToString (XMLHttpRequest.getResponseHeader o "Content-Length")) in
  let x' := finalized (clock w)
              (succeeded (clock w) (XMLHttpRequest.status o) (attached cl) s :: rest) x in
  handleXhrLoadEvent xhr w =
  Return tt
    (set_recorded
       (recorded w ++ traceEmission w x' ++
        (if HttpPluginConfig.recordAllRequests (config w)
            || negb (statusOk (XMLHttpRequest.status o))
         then [(HTTP_EVENT_TYPE, HttpData (responseSummary d o))] else []))
       (xhrMap_set xhr (XhrDetails.set_trace (Some x') d) w)).
Proof.
  intros Hd Hx Hs; cbv zeta.
  unfold handleXhrLoadEvent, xhrMap_get, epochTime, gets, assignResponse0,
    assignHttp0.
  rewrite bind_eq, Hd. js_run.
  unfold recordHttpEventWithResponse, gets, context_record, modify.
  destruct (JS.parseInt _) eqn:Ecl; cbn [negb JS.isNaN]; cbv iota; js_run;
    rewrite ?Ecl;
    cbn [Http.response Subsegment.http Subsegment.set_http Http.set_response];
    js_run;
    destruct (_ || _); js_run; js_done.
Qed.

Lemma handleXhrErrorEvent_sent w xhr d x s rest :
  xhrMap w !! xhr = Some d -> XhrDetails.trace d = Some x ->
  XRayTraceEvent.subsegments x = s :: rest ->
  let msg := errorMessage (deref w xhr) in
  let x' := finalized (clock w)
              (failed (clock w) "XMLHttpRequest error" (Some msg) s :: rest) x in
  handleXhrErrorEvent xhr w =
  Return tt
    (set_recorded
       (recorded w ++ traceEmission w x' ++
        [(HTTP_EVENT_TYPE, HttpData (errorSummary d (XhrError msg) w))])
       (xhrMap_set xhr (XhrDetails.set_trace (Some x') d) w)).
Proof.
  intros Hd Hx Hs msg x'.
  unfold handleXhrErrorEvent, xhrMap_get, epochTime, gets.
  rewrite bind_eq, Hd. js_run.
  unfold recordHttpEventWithError, gets, context_record, modify.
  js_run. js_done.
Qed.

Lemma handleXhrAbortEvent_sent w xhr d x s rest :
  xhrMap w !! xhr = Some d -> XhrDetails.trace d = Some x ->
  XRayTraceEvent.subsegments x = s :: rest ->
  let x' := finalized (clock w)
              (failed (clock w) "XMLHttpRequest abort" None s :: rest) x in
  handleXhrAbortEvent xhr w =
  Return tt
    (set_recorded
       (recorded w ++ traceEmission w x' ++
        [(HTTP_EVENT_TYPE,
          HttpData (errorSummary d (StringValue "XMLHttpRequest abort") w))])
       (xhrMap_set xhr (XhrDetails.set_trace (Some x') d) w)).
Proof.
  intros Hd Hx Hs x'.
  unfold handleXhrAbortEvent, xhrMap_get, epochTime, gets.
  rewrite bind_eq, Hd. js_run.
  unfold recordHttpEventWithError, gets, context_record, modify.
  js_run. js_done.
Qed.

Lemma handleXhrTimeoutEvent_sent w xhr d x s rest :
  xhrMap w !! xhr = Some d -> XhrDetails.trace d = Some x ->
  XRayTraceEvent.subsegments x = s :: rest ->
  let x' := finalized (clock w)
              (failed (clock w) "XMLHttpRequest timeout" None s :: rest) x in
  handleXhrTimeoutEvent xhr w =
  Return tt
    (set_recorded
       (recorded w ++ traceEmission w x' ++
        [(HTTP_EVENT_TYPE,
          HttpData (errorSummary d (StringValue "XMLHttpRequest timeout") w))])
       (xhrMap_set xhr (XhrDetails.set_trace (Some x') d) w)).
Proof.
  intros Hd Hx Hs x'.
  unfold handleXhrTimeoutEvent, xhrMap_get, epochTime, gets.
  rewrite bind_eq, Hd. js_run.
  unfold recordHttpEventWithError, gets, context_record, modify.
  js_run. js_done.
Qed.

Lemma callback_untracked cb xhr w :
  xhrMap w !! xhr = None -> callback cb xhr w = Return tt w.
Proof.
  intros Hd.
  destruct cb; simpl; try reflexivity;
    unfold handleXhrLoadEvent, handleXhrErrorEvent, handleXhrAbortEvent,
      handleXhrTimeoutEvent, xhrMap_get, gets;
    rewrite ?bind_eq, Hd; reflexivity.
Qed.

Lemma callback_unsent cb xhr w d :
  xhrMap w !! xhr = Some d -> XhrDetails.trace d = None ->
  world_of (callback cb xhr w) = w.
Proof.
  intros Hd Hx.
  destruct (assignTrace_unsent w xhr d (XRayTraceEvent.set_end_time (clock w)) Hd Hx)
    as [e He].
  destruct cb; simpl; try reflexivity;
    unfold handleXhrLoadEvent, handleXhrErrorEvent, handleXhrAbortEvent,
      handleXhrTimeoutEvent, xhrMap_get, epochTime, gets;
    rewrite bind_eq, Hd; cbv beta iota; rewrite !bind_eq; cbv beta iota;
    rewrite ?bind_eq; cbv beta iota; rewrite He; reflexivity.
Qed.

End Handlers.

(** ** What the two wrappers do, in closed form *)

Section Wrappers.
Context `{HttpUtils}.

Lemma initializeTrace_tracked w xhr d :
  xhrMap w !! xhr = Some d ->
  initializeTrace xhr w =
  Return tt (set_draws (3 + draws w)
               (xhrMap_set xhr (XhrDetails.set_trace (Some (freshTrace w d)) d) w)).
Proof.
  intros Hd.
  unfold initializeTrace, epochTime, gets, createXRayTraceEvent,
    createXRaySubsegment, draw.
  js_run. unfold freshTrace. js_done.
Qed.

Lemma isSessionRecorded_eq w : isSessionRecorded w = Return (sessionRecorded w) w.
Proof.
  unfold isSessionRecorded, sessionRecorded, gets.
  destruct (getSession w); by rewrite ?orb_false_r.
Qed.

Lemma sendWrapper_tracked original w this d :
  xhrMap w !! this = Some d ->
  sendWrapper original this w =
  Return tt
    (heap_set this (original (withHeader w d (withListeners (deref w this))))
       (set_draws (3 + draws w)
          (xhrMap_set this (XhrDetails.set_trace (Some (freshTrace w d)) d) w))).
Proof.
  intros Hd. unfold sendWrapper, xhrMap_get, gets.
  rewrite bind_eq, Hd. js_run.
  erewrite initializeTrace_tracked by exact Hd. cbv beta iota.
  unfold isTracingEnabled, addXRayTraceIdHeader, gets. js_run.
  rewrite isSessionRecorded_eq. cbv beta iota.
  unfold withHeader, injecting.
  change (sessionRecorded (set_draws _ _)) with (sessionRecorded w).
  change (enableXRay (set_draws _ _)) with (enableXRay w).
  change (config (set_draws _ _)) with (config w).
  destruct (_ && _ && _); js_run.
  - js_done.
  - js_done.
Qed.

Lemma sendWrapper_untracked original w this :
  xhrMap w !! this = None ->
  sendWrapper original this w =
  Return tt (heap_set this (original (deref w this)) w).
Proof.
  intros Hd. unfold sendWrapper, xhrMap_get, gets.
  rewrite bind_eq, Hd. js_run. reflexivity.
Qed.

Lemma openWrapper_eq original w this method url async :
  openWrapper original this method url async w =
  Return tt
    (heap_set this (original method url async (deref w this))
       (if isUrlAllowed url (config w)
        then xhrMap_set this (XhrDetails.mk method url async None) w
        else w)).
Proof.
  unfold openWrapper, gets, modify. js_run.
  destruct (isUrlAllowed url (config w)); js_run; reflexivity.
Qed.

End Wrappers.

(** ** The invariant of the store *)

Section Invariant.
Context `{HttpUtils}.

Lemma Inv_ext w w' :
  xhrMap w' = xhrMap w -> clock w' = clock w -> Inv w -> Inv w'.
Proof.
  intros Hm Hc HI xhr d x Hd Hx. rewrite Hc. rewrite Hm in Hd. eauto.
Qed.

Lemma started_mono now now' x : (now <= now')%Z -> started now x -> started now' x.
Proof. intros Hle (s & Hs & H1 & H2). exists s. repeat split; [done | lia | lia]. Qed.

Lemma Inv_store w k d :
  (forall x, XhrDetails.trace d = Some x -> started (clock w) x) ->
  Inv w -> Inv (xhrMap_set k d w).
Proof.
  intros Hk HI xhr d' x Hd Hx. change (clock (xhrMap_set k d w)) with (clock w).
  destruct (decide (k = xhr)) as [->|Hne].
  - rewrite lookup_xhrMap_set in Hd. simplify_eq. by apply Hk.
  - rewrite lookup_xhrMap_set_ne in Hd by done. eauto.
Qed.

Lemma started_finalized now e s s' x :
  XRayTraceEvent.subsegments x = [s] ->
  Subsegment.start_time s' = Subsegment.start_time s ->
  started now x -> started now (finalized e [s'] x).
Proof.
  intros Hs Hst (s0 & Hs0 & H1 & H2). rewrite Hs in Hs0. simplify_eq.
  exists s'. simpl. repeat split; [done | lia].
Qed.

Lemma Inv_callback cb xhr w : Inv w -> Inv (world_of (callback cb xhr w)).
Proof.
  intros HI.
  destruct (xhrMap w !! xhr) as [d|] eqn:Hd;
    [| by rewrite callback_untracked].
  destruct (XhrDetails.trace d) as [x|] eqn:Hx;
    [| by erewrite callback_unsent].
  destruct (HI _ _ _ Hd Hx) as (s & Hs & Hst).
  assert (Hstarted : started (clock w) x) by (exists s; done).
  destruct cb; simpl; [ erewrite handleXhrLoadEvent_sent by eassumption
                      | erewrite handleXhrErrorEvent_sent by eassumption
                      | erewrite handleXhrAbortEvent_sent by eassumption
                      | erewrite handleXhrTimeoutEvent_sent by eassumption
                      | done ];
    cbv zeta; simpl;
    (eapply Inv_ext; [reflexivity | reflexivity |]);
    apply Inv_store; try done;
    intros x' Hx'; simpl in Hx'; simplify_eq;
    by eapply started_finalized.
Qed.

Lemma Inv_dispatchEvent ty xhr w : Inv w -> Inv (dispatchEvent ty xhr w).
Proof.
  unfold dispatchEvent. generalize (XMLHttpRequest.listeners (deref w xhr)).
  intros l. revert w. induction l as [|[ty' cb] l IH]; intros w HI; simpl; [done|].
  apply IH. case_decide; [by apply Inv_callback | done].
Qed.

Lemma started_freshTrace w d : started (clock w) (freshTrace w d).
Proof. unfold freshTrace. eexists. simpl. split; [reflexivity | simpl; lia]. Qed.

Lemma Inv_exec nativeOpen nativeSend a w :
  Inv w -> Inv (exec nativeOpen nativeSend a w).
Proof.
  intros HI. destruct a as [this m u a|this|ty this|this st txt hdr|n|s]; simpl.
  - rewrite openWrapper_eq. simpl.
    eapply Inv_ext; [reflexivity | reflexivity |].
    destruct (isUrlAllowed _ _); [|done].
    apply Inv_store; [|done]. by intros x Hx.
  - destruct (xhrMap w !! this) as [d|] eqn:Hd.
    + erewrite sendWrapper_tracked by eassumption. simpl.
      eapply (Inv_ext (xhrMap_set this (XhrDetails.set_trace (Some (freshTrace w d)) d) w));
        [reflexivity | reflexivity |].
      apply Inv_store; [|done]. intros x Hx. simpl in Hx. simplify_eq.
      apply started_freshTrace.
    + rewrite sendWrapper_untracked by done. simpl.
      by eapply Inv_ext.
  - by apply Inv_dispatchEvent.
  - by eapply Inv_ext.
  - intros xhr d x Hd Hx. simpl. eapply started_mono; [|by eapply HI].
    lia.
  - by eapply Inv_ext.
Qed.

Lemma Inv_run nativeOpen nativeSend l w :
  Inv w -> Inv (run nativeOpen nativeSend l w).
Proof.
  revert w. induction l as [|a l IH]; intros w HI; simpl; [done|].
  apply IH. by apply Inv_exec.
Qed.

Lemma Inv_initial cfg xray session now : Inv (initial cfg xray session now).
Proof. intros xhr d x Hd. simpl in Hd. by rewrite lookup_empty in Hd. Qed.

End Invariant.

(** ** Recorded events, header text and listeners *)

Section Events.
Context `{HttpUtils}.

Lemma statusOk_iff status : statusOk status = true <-> (200 <= status < 300)%N.
Proof. unfold statusOk. rewrite andb_true_iff, N.leb_le, N.ltb_lt. done. Qed.

Lemma httpEvents_app l1 l2 : httpEvents (l1 ++ l2) = httpEvents l1 ++ httpEvents l2.
Proof. apply omap_app. Qed.

Lemma traceEvents_app l1 l2 : traceEvents (l1 ++ l2) = traceEvents l1 ++ traceEvents l2.
Proof. apply omap_app. Qed.

Lemma httpEvents_traceEmission w x : httpEvents (traceEmission w x) = [].
Proof. unfold traceEmission. by destruct (_ && _). Qed.

Lemma sessionRecorded_iff w :
  sessionRecorded w = true <->
  exists s, getSession w = Some s /\ Session.record s = true.
Proof.
  unfold sessionRecorded. destruct (getSession w) as [s|]; split.
  - intros Hs. by exists s.
  - by intros (s' & [= <-] & Hs).
  - done.
  - by intros (s' & [=] & _).
Qed.

Lemma parseInt_NaN_iff v : JS.parseInt v = JS.NaN <-> startsWithInteger v = false.
Proof.
  unfold JS.parseInt, startsWithInteger.
  destruct (JS.splitSign (JS.trimStart v)) as [sign rest]; simpl.
  destruct rest as [|c r]; simpl; [done|].
  by destruct (JS.digit c).
Qed.

Lemma requestHeaders_addEventListener ty cb o :
  XMLHttpRequest.requestHeaders (XMLHttpRequest.addEventListener ty cb o) =
  XMLHttpRequest.requestHeaders o.
Proof. unfold XMLHttpRequest.addEventListener. by case_decide. Qed.

Lemma listeners_addEventListener ty cb o :
  (ty, cb) ∈ XMLHttpRequest.listeners (XMLHttpRequest.addEventListener ty cb o).
Proof.
  unfold XMLHttpRequest.addEventListener. case_decide; [done|].
  simpl. apply elem_of_app. right. by apply list_elem_of_singleton.
Qed.

Lemma listeners_addEventListener_mono e ty cb o :
  e ∈ XMLHttpRequest.listeners o ->
  e ∈ XMLHttpRequest.listeners (XMLHttpRequest.addEventListener ty cb o).
Proof.
  intros He. unfold XMLHttpRequest.addEventListener. case_decide; [done|].
  simpl. apply elem_of_app. by left.
Qed.

Lemma requestHeaders_withListeners o :
  XMLHttpRequest.requestHeaders (withListeners o) = XMLHttpRequest.requestHeaders o.
Proof. unfold withListeners. by rewrite !requestHeaders_addEventListener. Qed.

Lemma listeners_withListeners ty o :
  (ty, listener ty) ∈ XMLHttpRequest.listeners (withListeners o).
Proof.
  unfold withListeners.
  destruct ty; simpl;
    repeat first [ apply listeners_addEventListener
                 | apply listeners_addEventListener_mono ].
Qed.

Lemma listeners_withHeader w d o :
  XMLHttpRequest.listeners (withHeader w d o) = XMLHttpRequest.listeners o.
Proof. unfold withHeader. by destruct (injecting w). Qed.

End Events.

(** * The claims *)

Section Claims.
Context `{HttpUtils}.

(** C1.  When the load listener runs for a request that was tracked and
    sent, it returns normally and only appends to the recorded events.  If
    the status is in [200,300), the appended events hold the HTTP event of
    the response exactly when [recordAllRequests] is true, and none
    otherwise; if the status is outside that range they always hold it. *)
Theorem load_summary_iff_recordAllRequests
  (w : World) (xhr : Handle) (d : XhrDetails.t) (x : XRayTraceEvent.t)
  (s : Subsegment.t) (rest : list Subsegment.t) :
  xhrMap w !! xhr = Some d ->
  XhrDetails.trace d = Some x ->
  XRayTraceEvent.subsegments x = s :: rest ->
  let o := deref w xhr in
  let summary :=
    HttpEvent.mk "1.0.0" (HttpEvent.mkRequest (XhrDetails.method d))
      (Some (HttpEvent.mkResponse (XMLHttpRequest.status o)
               (XMLHttpRequest.statusText o))) None in
  exists w' evs,
    handleXhrLoadEvent xhr w = Return tt w' /\
    recorded w' = recorded w ++ evs /\
    ((200 <= XMLHttpRequest.status o < 300)%N ->
       (httpEvents evs = [summary] <->
          HttpPluginConfig.recordAllRequests (config w) = true) /\
       (httpEvents evs = [] <->
          HttpPluginConfig.recordAllRequests (config w) = false)) /\
    (~ (200 <= XMLHttpRequest.status o < 300)%N -> httpEvents evs = [summary]).
Proof.
  intros Hd Hx Hs o summary.
  rewrite (handleXhrLoadEvent_sent _ _ _ _ _ _ Hd Hx Hs). cbv zeta. fold o.
  eexists _, _. split; [reflexivity|]. split; [reflexivity|].
  rewrite httpEvents_app, httpEvents_traceEmission. simpl.
  rewrite <- statusOk_iff. subst summary. unfold responseSummary. fold o.
  destruct (statusOk (XMLHttpRequest.status o));
    destruct (HttpPluginConfig.recordAllRequests (config w)); simpl;
    (split; [intros Hok; try done; split; split; done
            | intros Hn; try done; by destruct Hn]).
Qed.

(** C2.  [recordTraceEvent] forwards the trace it is given exactly when
    X-Ray is enabled and the session exists and is recorded; otherwise it
    leaves the world as it was.  A missing session gives the same result as
    a session that is not recorded. *)
Theorem trace_event_iff_tracing_and_recorded
  (w : World) (x : XRayTraceEvent.t) :
  exists w',
    recordTraceEvent x w = Return tt w' /\
    (w' = set_recorded (recorded w ++ [(XRAY_TRACE_EVENT_TYPE, TraceData x)]) w
     <-> enableXRay w = true /\
         exists s, getSession w = Some s /\ Session.record s = true) /\
    (w' = w
     <-> ~ (enableXRay w = true /\
            exists s, getSession w = Some s /\ Session.record s = true)) /\
    (getSession w = None -> w' = w) /\
    recordTraceEvent x (set_getSession None w) =
      Return tt (set_getSession None w) /\
    recordTraceEvent x (set_getSession (Some (Session.mk false)) w) =
      Return tt (set_getSession (Some (Session.mk false)) w).
Proof.
  assert (Hne : forall l (e : EventType * EventData) w0,
             set_recorded (recorded w0 ++ l ++ [e]) w0 <> w0).
  { intros l e w0 Heq. apply (f_equal recorded) in Heq. simpl in Heq.
    apply (f_equal length) in Heq. rewrite !length_app in Heq. simpl in Heq. lia. }
  assert (Hid : forall w0, set_recorded (recorded w0 ++ []) w0 = w0).
  { intros [c e g m l h k n]. unfold set_recorded; simpl. by rewrite app_nil_r. }
  exists (set_recorded (recorded w ++ traceEmission w x) w).
  split; [apply recordTraceEvent_eq|].
  rewrite <- sessionRecorded_iff, <- andb_true_iff.
  rewrite !recordTraceEvent_eq.
  unfold traceEmission.
  change (enableXRay (set_getSession _ w)) with (enableXRay w).
  change (sessionRecorded (set_getSession None w)) with false.
  change (sessionRecorded (set_getSession (Some (Session.mk false)) w)) with false.
  rewrite andb_false_r, !Hid.
  repeat split; try done.
  - destruct (enableXRay w && sessionRecorded w); [done|].
    rewrite Hid. intros Heq. symmetry in Heq. by apply (Hne []) in Heq.
  - by intros ->.
  - destruct (enableXRay w && sessionRecorded w); [|done].
    intros Heq. by apply (Hne []) in Heq.
  - intros Hn. destruct (enableXRay w && sessionRecorded w); [done | apply Hid].
  - intros Hs. unfold sessionRecorded. rewrite Hs, andb_false_r. apply Hid.
Qed.

(** C3.  When [send] is called on a tracked request, the wrapper hands to
    the native [send] a request whose headers are the earlier ones followed
    by the X-Ray header, built from the trace id and the subsegment id of
    the trace just started, exactly when X-Ray is enabled, header injection
    is configured and the session is recorded; otherwise the headers are
    the earlier ones.  The value of [recordAllRequests] has no part in it. *)
Theorem trace_header_iff_three_flags
  (w : World) (this : Handle) (d : XhrDetails.t) :
  xhrMap w !! this = Some d ->
  exists pre x s,
    XRayTraceEvent.subsegments x = [s] /\
    (forall original : Send, exists w' d',
       sendWrapper original this w = Return tt w' /\
       deref w' this = original pre /\
       xhrMap w' !! this = Some d' /\ XhrDetails.trace d' = Some x) /\
    let header :=
      (X_AMZN_TRACE_ID,
       getAmznTraceIdHeaderValue (XRayTraceEvent.trace_id x) (Subsegment.id s)) in
    let all_three :=
      enableXRay w = true /\
      HttpPluginConfig.addXRayTraceIdHeader (config w) = true /\
      exists r, getSession w = Some r /\ Session.record r = true in
    (XMLHttpRequest.requestHeaders pre =
       XMLHttpRequest.requestHeaders (deref w this) ++ [header] <-> all_three) /\
    (XMLHttpRequest.requestHeaders pre =
       XMLHttpRequest.requestHeaders (deref w this) <-> ~ all_three) /\
    forall (b : bool) (original : Send),
      deref (world_of (sendWrapper original this (with_recordAllRequests b w))) this
      = original pre.
Proof.
  intros Hd.
  exists (withHeader w d (withListeners (deref w this))), (freshTrace w d).
  eexists. split; [reflexivity|]. split.
  { intros original. rewrite (sendWrapper_tracked _ _ _ _ Hd).
    eexists _, _. split; [reflexivity|].
    split; [apply deref_heap_set|].
    split; [apply lookup_xhrMap_set | reflexivity]. }
  cbv zeta.
  assert (Hflags : injecting w = true <->
            enableXRay w = true /\
            HttpPluginConfig.addXRayTraceIdHeader (config w) = true /\
            exists r, getSession w = Some r /\ Session.record r = true).
  { unfold injecting. rewrite !andb_true_iff, sessionRecorded_iff. tauto. }
  rewrite <- Hflags.
  assert (Hne : forall (l : list (string * string)) e, l ++ [e] <> l).
  { intros l e Heq. apply (f_equal length) in Heq. rewrite length_app in Heq.
    simpl in Heq. lia. }
  unfold withHeader. simpl.
  split; [|split].
  - destruct (injecting w); simpl; rewrite requestHeaders_withListeners.
    + done.
    + split; [|done]. intros Heq. symmetry in Heq. by apply Hne in Heq.
  - destruct (injecting w); simpl; rewrite requestHeaders_withListeners.
    + split; [|done]. intros Heq. by apply Hne in Heq.
    + split; [by intros _ | done].
  - intros b original.
    rewrite (sendWrapper_tracked original (with_recordAllRequests b w) this d Hd).
    simpl. rewrite deref_heap_set. reflexivity.
Qed.

(** C4, amended.  After the load listener the response of the first
    subsegment carries the status, and [content_length] is attached
    exactly when the Content-Length header is present and starts, after
    white space and an optional sign, with a decimal digit; nothing asks
    for the sign to be absent.  It is left out when the header is missing
    or has no integer at its start, which is when [parseInt] of the header
    is NaN, and it is never NaN. *)
Theorem content_length_only_when_parseable
  (w : World) (xhr : Handle) (d : XhrDetails.t) (x : XRayTraceEvent.t)
  (s : Subsegment.t) (rest : list Subsegment.t) :
  xhrMap w !! xhr = Some d ->
  XhrDetails.trace d = Some x ->
  XRayTraceEvent.subsegments x = s :: rest ->
  let header := XMLHttpRequest.getResponseHeader (deref w xhr) "Content-Length" in
  exists w' d' x' s' r,
    handleXhrLoadEvent xhr w = Return tt w' /\
    xhrMap w' !! xhr = Some d' /\ XhrDetails.trace d' = Some x' /\
    XRayTraceEvent.subsegments x' = s' :: rest /\
    Http.response (Subsegment.http s') = Some r /\
    Http.status r = XMLHttpRequest.status (deref w xhr) /\
    ((exists n, Http.content_length r = Some n) <->
       exists v, header = Some v /\ startsWithInteger v = true) /\
    (Http.content_length r = None <->
       header = None \/ exists v, header = Some v /\ startsWithInteger v = false) /\
    (Http.content_length r = None <->
       JS.isNaN (JS.parseInt (JS.ToString header)) = true) /\
    Http.content_length r <> Some JS.NaN.
Proof.
  intros Hd Hx Hs header.
  rewrite (handleXhrLoadEvent_sent _ _ _ _ _ _ Hd Hx Hs). cbv zeta. fold header.
  eexists _, _, _, _, _. split; [reflexivity|].
  split; [apply lookup_xhrMap_set|].
  split; [reflexivity|]. split; [reflexivity|]. split; [reflexivity|].
  split; [reflexivity|]. simpl.
  assert (Hnull : JS.parseInt (JS.ToString None) = JS.NaN) by reflexivity.
  assert (Hcases : forall v, JS.parseInt v = JS.NaN \/ exists z, JS.parseInt v = JS.Int z).
  { intros v. destruct (JS.parseInt v); [by left | right; by eexists]. }
  destruct header as [v|]; simpl.
  - destruct (Hcases v) as [Hn | [z Hz]].
    + rewrite Hn. simpl. apply (parseInt_NaN_iff v) in Hn.
      split; [split; [by intros [n Hn'] | intros (v' & [= <-] & Hv'); congruence]|].
      split; [split; [intros _; right; by exists v | done]|].
      split; done.
    + rewrite Hz. simpl.
      assert (Hs' : startsWithInteger v = true).
      { destruct (startsWithInteger v) eqn:E; [done|].
        apply (parseInt_NaN_iff v) in E. congruence. }
      split; [split; [intros _; by exists v | intros _; by eexists]|].
      split; [split; [done | intros [Hnone | (v' & [= <-] & Hv')]; congruence]|].
      split; done.
  - rewrite ?Hnull; simpl.
    split; [split; [by intros [n Hn] | by intros (v & Hv & _)]|].
    split; [split; [intros _; by left | done]|].
    split; done.
Qed.

(** C5, amended.  Two calls of [open] on the same request object, the
    second with a URL the filter accepts, leave the store as one call with
    the second arguments would: the object maps to the record of the second
    call (its method, URL and [async], no trace yet), and every other entry
    is as before. *)
Theorem second_open_replaces_record
  (original : Open) (w : World) (this : Handle)
  (method1 url1 : string) (async1 : bool)
  (method2 url2 : string) (async2 : bool) :
  isUrlAllowed url2 (config w) = true ->
  exists w1 w2,
    openWrapper original this method1 url1 async1 w = Return tt w1 /\
    openWrapper original this method2 url2 async2 w1 = Return tt w2 /\
    xhrMap w2 !! this = Some (XhrDetails.mk method2 url2 async2 None) /\
    (forall other, other <> this -> xhrMap w2 !! other = xhrMap w !! other) /\
    xhrMap w2 =
      xhrMap (world_of (openWrapper original this method2 url2 async2 w)).
Proof.
  intros Hok.
  rewrite !openWrapper_eq.
  eexists _, _. split; [reflexivity|].
  rewrite openWrapper_eq. split; [reflexivity|].
  assert (Hcfg : forall o (w0 : World),
            config (heap_set this o
                      (if isUrlAllowed url1 (config w0)
                       then xhrMap_set this (XhrDetails.mk method1 url1 async1 None) w0
                       else w0)) = config w0).
  { intros o w0. by destruct (isUrlAllowed url1 (config w0)). }
  rewrite Hcfg, Hok. simpl.
  destruct (isUrlAllowed url1 (config w)); simpl.
  - rewrite insert_insert_eq.
    split; [apply lookup_insert_eq|]. split; [|done].
    intros other Hne. by apply lookup_insert_ne.
  - split; [apply lookup_insert_eq|]. split; [|done].
    intros other Hne. by apply lookup_insert_ne.
Qed.

(** C6.  When the error, abort or timeout listener runs for a request that
    was tracked and sent, whatever the configuration and the session are,
    it returns normally and the events it appends hold exactly one HTTP
    event: the method of the request, no response, and the error built by
    the normaliser.  For a timeout and for an abort the normaliser is given
    only the fixed name, and the cause kept in the trace has that name and
    no message; for a network error it is given an [XhrError] whose message
    is the status, followed by the status text when there is one, and the
    cause carries the same message. *)
Theorem failure_summary_unconditional
  (w : World) (xhr : Handle) (d : XhrDetails.t) (x : XRayTraceEvent.t)
  (s : Subsegment.t) (rest : list Subsegment.t) :
  xhrMap w !! xhr = Some d ->
  XhrDetails.trace d = Some x ->
  XRayTraceEvent.subsegments x = s :: rest ->
  let summary (e : ErrorValue) :=
    HttpEvent.mk "1.0.0" (HttpEvent.mkRequest (XhrDetails.method d)) None
      (Some (errorEventToJsErrorEvent (ErrorEvent.mk "error" e)
               (HttpPluginConfig.stackTraceLength (config w)))) in
  let reported (run : Outcome unit) (e : ErrorValue)
               (name : string) (message : option string) :=
    exists w' evs d' x' s',
      run = Return tt w' /\
      recorded w' = recorded w ++ evs /\
      httpEvents evs = [summary e] /\
      xhrMap w' !! xhr = Some d' /\ XhrDetails.trace d' = Some x' /\
      XRayTraceEvent.subsegments x' = s' :: rest /\
      Subsegment.error s' = Some true /\
      Subsegment.cause s' =
        Some (Subsegment.mkCause [Subsegment.mkException name message]) /\
      Subsegment.http s' = Subsegment.http s in
  let status := XMLHttpRequest.status (deref w xhr) in
  let statusText := XMLHttpRequest.statusText (deref w xhr) in
  let message :=
    (if JS.truthy statusText
     then JS.toString status ++ ": " ++ statusText
     else JS.toString status)%string in
  reported (handleXhrTimeoutEvent xhr w)
    (StringValue "XMLHttpRequest timeout") "XMLHttpRequest timeout" None /\
  reported (handleXhrAbortEvent xhr w)
    (StringValue "XMLHttpRequest abort") "XMLHttpRequest abort" None /\
  reported (handleXhrErrorEvent xhr w)
    (XhrError message) "XMLHttpRequest error" (Some message).
Proof.
  intros Hd Hx Hs summary reported status statusText message.
  subst reported. cbv beta.
  rewrite (handleXhrTimeoutEvent_sent _ _ _ _ _ _ Hd Hx Hs),
          (handleXhrAbortEvent_sent _ _ _ _ _ _ Hd Hx Hs),
          (handleXhrErrorEvent_sent _ _ _ _ _ _ Hd Hx Hs).
  cbv zeta.
  repeat split;
    (eexists _, _, _, _, _; split; [reflexivity|];
     split; [reflexivity|];
     split; [by rewrite httpEvents_app, httpEvents_traceEmission|];
     split; [apply lookup_xhrMap_set|];
     repeat (split; [reflexivity|]); reflexivity).
Qed.

(** C7.  In every world the page and the host can reach from a freshly
    loaded plugin, when a terminal listener runs for a request that was
    tracked and sent, it returns normally, and afterwards the trace of the
    request has the current time as [end_time] of the root segment and of
    its one subsegment; both start times are unchanged and neither is
    later than that [end_time]. *)
Theorem end_time_set_not_before_start_time
  (nativeOpen : Open) (nativeSend : Send)
  (cfg : HttpPluginConfig.t) (xray : bool) (session : option Session.t)
  (now : Z) (l : list Action)
  (ty : EventName) (xhr : Handle) (d : XhrDetails.t) (x : XRayTraceEvent.t) :
  let w := run nativeOpen nativeSend l (initial cfg xray session now) in
  xhrMap w !! xhr = Some d ->
  XhrDetails.trace d = Some x ->
  exists w' d' x' s s' endTime,
    callback (listener ty) xhr w = Return tt w' /\
    XRayTraceEvent.subsegments x = [s] /\
    xhrMap w' !! xhr = Some d' /\ XhrDetails.trace d' = Some x' /\
    XRayTraceEvent.subsegments x' = [s'] /\
    endTime = clock w /\
    XRayTraceEvent.end_time x' = Some endTime /\
    Subsegment.end_time s' = Some endTime /\
    XRayTraceEvent.start_time x' = XRayTraceEvent.start_time x /\
    Subsegment.start_time s' = Subsegment.start_time s /\
    (XRayTraceEvent.start_time x' <= endTime)%Z /\
    (Subsegment.start_time s' <= endTime)%Z.
Proof.
  intros w Hd Hx.
  assert (HI : Inv w) by apply Inv_run, Inv_initial.
  destruct (HI _ _ _ Hd Hx) as (s & Hs & Hle1 & Hle2).
  destruct ty; simpl;
    [ rewrite (handleXhrLoadEvent_sent _ _ _ _ _ _ Hd Hx Hs)
    | rewrite (handleXhrErrorEvent_sent _ _ _ _ _ _ Hd Hx Hs)
    | rewrite (handleXhrAbortEvent_sent _ _ _ _ _ _ Hd Hx Hs)
    | rewrite (handleXhrTimeoutEvent_sent _ _ _ _ _ _ Hd Hx Hs) ];
    cbv zeta;
    (eexists _, _, _, s, _, _; split; [reflexivity|];
     split; [exact Hs|];
     split; [apply lookup_xhrMap_set|];
     repeat (split; [reflexivity|]); simpl; split; assumption).
Qed.

(** C9.  A terminal listener that runs for a request object with no entry
    in the store returns normally and leaves the world exactly as it was:
    the store, the recorded events, the request objects, the clock. *)
Theorem listener_without_record_is_noop
  (ty : EventName) (xhr : Handle) (w : World) :
  xhrMap w !! xhr = None ->
  callback (listener ty) xhr w = Return tt w /\
  forall nativeOpen nativeSend,
    recorded (exec nativeOpen nativeSend (Fire ty xhr) w) = recorded w /\
    xhrMap (exec nativeOpen nativeSend (Fire ty xhr) w) = xhrMap w.
Proof.
  intros Hd. split; [by apply callback_untracked|].
  intros nativeOpen nativeSend. simpl. unfold dispatchEvent.
  generalize (XMLHttpRequest.listeners (deref w xhr)). intros l.
  assert (Hfix : fold_left
            (fun w' (e : EventName * Callback) =>
               if decide (e.1 = ty) then world_of (callback e.2 xhr w') else w')
            l w = w).
  { induction l as [|e l IH]; simpl; [done|].
    case_decide; [|done]. by rewrite callback_untracked. }
  by rewrite Hfix.
Qed.

(** C10.  When [send] is called on a tracked request, whatever the
    configuration and the session are, the request handed to the native
    [send] has the four terminal listeners, no event is recorded, and the
    record keeps its method, URL and [async] and gets a new trace: a root
    segment named after the service, started now and not ended, with
    exactly one subsegment, started now and not ended, named after the host
    of the URL, whose request has the method and [traced] set. *)
Theorem send_always_listens_and_starts_trace
  (w : World) (this : Handle) (d : XhrDetails.t) :
  xhrMap w !! this = Some d ->
  exists pre x s,
    (forall original : Send, exists w',
       sendWrapper original this w = Return tt w' /\
       deref w' this = original pre /\
       recorded w' = recorded w /\
       xhrMap w' !! this =
         Some (XhrDetails.mk (XhrDetails.method d) (XhrDetails.url d)
                 (XhrDetails.async d) (Some x))) /\
    (forall ty, (ty, listener ty) ∈ XMLHttpRequest.listeners pre) /\
    XRayTraceEvent.subsegments x = [s] /\
    XRayTraceEvent.name x = HttpPluginConfig.logicalServiceName (config w) /\
    XRayTraceEvent.start_time x = clock w /\
    XRayTraceEvent.end_time x = None /\
    Subsegment.start_time s = clock w /\
    Subsegment.end_time s = None /\
    Subsegment.name s = requestInfoToHostname (XhrDetails.url d) /\
    Subsegment.http s =
      Http.mk (Http.mkRequest (XhrDetails.method d) true) None.
Proof.
  intros Hd.
  exists (withHeader w d (withListeners (deref w this))), (freshTrace w d).
  eexists. split.
  { intros original. rewrite (sendWrapper_tracked _ _ _ _ Hd).
    eexists. split; [reflexivity|]. split; [apply deref_heap_set|].
    split; [reflexivity | apply lookup_xhrMap_set]. }
  split.
  { intros ty. rewrite listeners_withHeader. apply listeners_withListeners. }
  repeat (split; [reflexivity|]). reflexivity.
Qed.

End Claims.

(** ** A rejected URL: the untouched handle, and the reused one *)

Section Rejected.
Context `{HttpUtils}.

(** [open] with a rejected URL on an object that has no record, then
    [send]: the store is as before, no event is recorded, and the object
    has only gone through the two native methods. *)
Lemma rejected_open_then_send_on_new_handle
  (nativeOpen : Open) (nativeSend : Send) (w : World) (this : Handle)
  (method url : string) (async : bool) :
  isUrlAllowed url (config w) = false ->
  xhrMap w !! this = None ->
  exists w1,
    openWrapper nativeOpen this method url async w = Return tt w1 /\
    sendWrapper nativeSend this w1 =
      Return tt
        (heap_set this (nativeSend (nativeOpen method url async (deref w this))) w).
Proof.
  intros Hno Hd. rewrite openWrapper_eq, Hno.
  eexists. split; [reflexivity|].
  rewrite sendWrapper_untracked by exact Hd.
  by rewrite deref_heap_set, heap_set_set.
Qed.

(** [open] with a rejected URL leaves an earlier record of the object in
    the store. *)
Lemma rejected_open_keeps_earlier_record
  (nativeOpen : Open) (w : World) (this : Handle) (d : XhrDetails.t)
  (method url : string) (async : bool) :
  isUrlAllowed url (config w) = false ->
  xhrMap w !! this = Some d ->
  exists w1,
    openWrapper nativeOpen this method url async w = Return tt w1 /\
    xhrMap w1 !! this = Some d.
Proof.
  intros Hno Hd. rewrite openWrapper_eq, Hno.
  eexists. split; [reflexivity | exact Hd].
Qed.

End Rejected.

(** ** [parseInt] on sample header values *)

Example parseInt_digits : JS.parseInt "12" = JS.Int 12.
Proof. reflexivity. Qed.

Example parseInt_null : JS.parseInt (JS.ToString None) = JS.NaN.
Proof. reflexivity. Qed.

Example parseInt_prefix : JS.parseInt "  +42abc" = JS.Int 42.
Proof. reflexivity. Qed.

Example parseInt_negative : JS.parseInt "-5" = JS.Int (-5).
Proof. reflexivity. Qed.

Example parseInt_no_hex : JS.parseInt "0x1F" = JS.Int 0.
Proof. reflexivity. Qed.

Example parseInt_text : JS.parseInt "chunked" = JS.NaN.
Proof. reflexivity. Qed.

Example parseInt_empty : JS.parseInt EmptyString = JS.NaN.
Proof. reflexivity. Qed.

Example toString_404 : JS.toString 404 = "404".
Proof. reflexivity. Qed.

Example toString_0 : JS.toString 0 = "0".
Proof. reflexivity. Qed.

(** ** The claims at concrete inputs *)

Lemma load_summary_iff_recordAllRequests_witness :
  let w := Demo.answered 200 "OK" "12" in
  xhrMap w !! 1%positive = Some Demo.sentDetails /\
  exists w' evs,
    handleXhrLoadEvent 1 w = Return tt w' /\
    recorded w' = recorded w ++ evs /\
    httpEvents evs = [].
Proof.
  cbv zeta. split; [vm_compute; reflexivity|].
  destruct (load_summary_iff_recordAllRequests
              (Demo.answered 200 "OK" "12") 1 Demo.sentDetails Demo.sentTrace
              Demo.sentSubsegment [])
    as (w' & evs & Hrun & Hrec & Hok & _);
    [vm_compute; reflexivity | reflexivity | reflexivity |].
  exists w', evs. split; [exact Hrun|]. split; [exact Hrec|].
  apply Hok; [vm_compute; split; [discriminate | reflexivity] | reflexivity].
Defined.

Lemma trace_header_iff_three_flags_witness :
  let w := run (H := Demo.utils) Demo.nativeOpen Demo.nativeSend
             [CallOpen 1 "GET" Demo.allowedUrl true]
             (initial (Demo.cfg false) true (Some (Session.mk true)) 1000) in
  xhrMap w !! 1%positive =
    Some (XhrDetails.mk "GET" Demo.allowedUrl true None) /\
  exists w',
    sendWrapper (H := Demo.utils) Demo.nativeSend 1 w = Return tt w' /\
    XMLHttpRequest.requestHeaders (deref w' 1) =
      [("X-Amzn-Trace-Id", "Root=trace-1;Parent=seg-2;Sampled=1")].
Proof.
  cbv zeta. split; [vm_compute; reflexivity|].
  destruct (trace_header_iff_three_flags (H := Demo.utils)
              (run (H := Demo.utils) Demo.nativeOpen Demo.nativeSend
                 [CallOpen 1 "GET" Demo.allowedUrl true]
                 (initial (Demo.cfg false) true (Some (Session.mk true)) 1000))
              1 (XhrDetails.mk "GET" Demo.allowedUrl true None))
    as (pre & x & s & Hs & Hrun & Hyes & _);
    [vm_compute; reflexivity|].
  destruct (Hrun Demo.nativeSend) as (w' & d' & Hsend & Hpre & Hd' & Hx).
  exists w'. split; [exact Hsend|].
  rewrite Hpre. unfold Demo.nativeSend.
  assert (Hall : XMLHttpRequest.requestHeaders pre =
            [] ++ [("X-Amzn-Trace-Id",
                    getAmznTraceIdHeaderValue (HttpUtils := Demo.utils)
                      (XRayTraceEvent.trace_id x) (Subsegment.id s))]).
  { apply Hyes. split; [reflexivity|]. split; [reflexivity|].
    exists (Session.mk true). split; reflexivity. }
  rewrite Hall. clear Hall Hyes Hrun Hpre.
  vm_compute in Hsend. injection Hsend as <-.
  vm_compute in Hd'. injection Hd' as <-.
  simpl in Hx. injection Hx as <-.
  simpl in Hs. injection Hs as <-.
  reflexivity.
Defined.

Lemma content_length_only_when_parseable_witness :
  let w := Demo.answered 200 "OK" "512" in
  xhrMap w !! 1%positive = Some Demo.sentDetails /\
  exists w' d' x' s' r,
    handleXhrLoadEvent 1 w = Return tt w' /\
    xhrMap w' !! 1%positive = Some d' /\ XhrDetails.trace d' = Some x' /\
    XRayTraceEvent.subsegments x' = [s'] /\
    Http.response (Subsegment.http s') = Some r /\
    Http.status r = 200%N /\
    exists n, Http.content_length r = Some n.
Proof.
  cbv zeta. split; [vm_compute; reflexivity|].
  destruct (content_length_only_when_parseable
              (Demo.answered 200 "OK" "512") 1 Demo.sentDetails Demo.sentTrace
              Demo.sentSubsegment [])
    as (w' & d' & x' & s' & r & Hrun & Hd' & Hx' & Hs' & Hr & Hst & Hsome & _);
    [vm_compute; reflexivity | reflexivity | reflexivity |].
  exists w', d', x', s', r.
  split; [exact Hrun|]. split; [exact Hd'|]. split; [exact Hx'|].
  split; [exact Hs'|]. split; [exact Hr|]. split; [exact Hst|].
  apply (proj2 Hsome). exists "512". split; reflexivity.
Defined.

Lemma second_open_replaces_record_witness :
  let w := initial (Demo.cfg false) true (Some (Session.mk true)) 1000 in
  isUrlAllowed (HttpUtils := Demo.utils) Demo.allowedUrl (config w) = true /\
  exists w1 w2,
    openWrapper (H := Demo.utils) Demo.nativeOpen 1 "GET" "https://api.example.com/old" true w
      = Return tt w1 /\
    openWrapper (H := Demo.utils) Demo.nativeOpen 1 "POST" Demo.allowedUrl false w1
      = Return tt w2 /\
    xhrMap w2 !! 1%positive =
      Some (XhrDetails.mk "POST" Demo.allowedUrl false None).
Proof.
  cbv zeta. split; [reflexivity|].
  destruct (second_open_replaces_record (H := Demo.utils) Demo.nativeOpen
              (initial (Demo.cfg false) true (Some (Session.mk true)) 1000) 1
              "GET" "https://api.example.com/old" true
              "POST" Demo.allowedUrl false)
    as (w1 & w2 & H1 & H2 & H3 & _); [reflexivity|].
  exists w1, w2. repeat (split; [assumption|]). assumption.
Defined.

Lemma failure_summary_unconditional_witness :
  let w := Demo.answered 0 EmptyString "0" in
  xhrMap w !! 1%positive = Some Demo.sentDetails /\
  exists w' evs,
    handleXhrTimeoutEvent 1 w = Return tt w' /\
    recorded w' = recorded w ++ evs /\
    httpEvents evs =
      [HttpEvent.mk "1.0.0" (HttpEvent.mkRequest "GET") None
         (Some (errorEventToJsErrorEvent
                  (ErrorEvent.mk "error" (StringValue "XMLHttpRequest timeout"))
                  200))].
Proof.
  cbv zeta. split; [vm_compute; reflexivity|].
  destruct (failure_summary_unconditional
              (Demo.answered 0 EmptyString "0") 1 Demo.sentDetails Demo.sentTrace
              Demo.sentSubsegment [])
    as ((w' & evs & d' & x' & s' & Hrun & Hrec & Hev & _) & _);
    [vm_compute; reflexivity | reflexivity | reflexivity |].
  exists w', evs. split; [exact Hrun|]. split; [exact Hrec|]. exact Hev.
Defined.

Lemma end_time_set_not_before_start_time_witness :
  xhrMap Demo.sentWorld !! 1%positive = Some Demo.sentDetails /\
  exists w' d' x' s',
    callback (listener timeout) 1 Demo.sentWorld = Return tt w' /\
    xhrMap w' !! 1%positive = Some d' /\ XhrDetails.trace d' = Some x' /\
    XRayTraceEvent.subsegments x' = [s'] /\
    XRayTraceEvent.end_time x' = Some 1005%Z /\
    Subsegment.end_time s' = Some 1005%Z /\
    XRayTraceEvent.start_time x' = 1000%Z /\
    Subsegment.start_time s' = 1000%Z.
Proof.
  split; [vm_compute; reflexivity|].
  destruct (end_time_set_not_before_start_time (H := Demo.utils)
              Demo.nativeOpen Demo.nativeSend
              (Demo.cfg false) true (Some (Session.mk true)) 1000
              [CallOpen 1 "GET" Demo.allowedUrl true; CallSend 1; Tick 5]
              timeout 1 Demo.sentDetails Demo.sentTrace)
    as (w' & d' & x' & s & s' & endTime & Hrun & Hs & Hd' & Hx' & Hs' & Hend
        & He1 & He2 & Hst1 & Hst2 & _);
    [vm_compute; reflexivity | reflexivity |].
  exists w', d', x', s'.
  split; [exact Hrun|]. split; [exact Hd'|]. split; [exact Hx'|].
  split; [exact Hs'|].
  vm_compute in Hend. subst endTime.
  simpl in Hs. injection Hs as <-.
  repeat split; assumption.
Defined.

Lemma listener_without_record_is_noop_witness :
  let w := initial (Demo.cfg false) true (Some (Session.mk true)) 1000 in
  xhrMap w !! 1%positive = None /\
  callback (listener load) 1 w = Return tt w.
Proof.
  cbv zeta. split; [reflexivity|].
  apply (listener_without_record_is_noop (H := Demo.utils) load 1
           (initial (Demo.cfg false) true (Some (Session.mk true)) 1000)).
  reflexivity.
Defined.

Lemma send_always_listens_and_starts_trace_witness :
  let w := run (H := Demo.utils) Demo.nativeOpen Demo.nativeSend
             [CallOpen 1 "GET" Demo.allowedUrl true]
             (initial (Demo.cfg false) false None 1000) in
  xhrMap w !! 1%positive =
    Some (XhrDetails.mk "GET" Demo.allowedUrl true None) /\
  exists w' x s,
    sendWrapper (H := Demo.utils) Demo.nativeSend 1 w = Return tt w' /\
    (forall ty, (ty, listener ty) ∈ XMLHttpRequest.listeners (deref w' 1)) /\
    recorded w' = [] /\
    xhrMap w' !! 1%positive =
      Some (XhrDetails.mk "GET" Demo.allowedUrl true (Some x)) /\
    XRayTraceEvent.subsegments x = [s] /\
    XRayTraceEvent.start_time x = 1000%Z /\
    Subsegment.start_time s = 1000%Z /\
    Subsegment.name s = Demo.allowedUrl.
Proof.
  cbv zeta. split; [vm_compute; reflexivity|].
  destruct (send_always_listens_and_starts_trace (H := Demo.utils)
              (run (H := Demo.utils) Demo.nativeOpen Demo.nativeSend
                 [CallOpen 1 "GET" Demo.allowedUrl true]
                 (initial (Demo.cfg false) false None 1000))
              1 (XhrDetails.mk "GET" Demo.allowedUrl true None))
    as (pre & x & s & Hrun & Hl & Hs & _ & Hst & _ & Hsst & _ & Hname & _);
    [vm_compute; reflexivity|].
  destruct (Hrun Demo.nativeSend) as (w' & Hsend & Hpre & Hrec & Hd').
  exists w', x, s. split; [exact Hsend|].
  split; [rewrite Hpre; exact Hl|].
  split; [exact Hrec|]. split; [exact Hd'|]. split; [exact Hs|].
  split; [exact Hst|]. split; [exact Hsst|]. exact Hname.
Defined.

(** C5, as stated, fails: [open] for an accepted URL followed by [open]
    for a rejected URL on the same request object leaves the record of the
    first call in the store, not one of the second call. *)
Lemma rejected_second_open_keeps_first_record :
  let w := initial (Demo.cfg false) true (Some (Session.mk true)) 1000 in
  isUrlAllowed (HttpUtils := Demo.utils) Demo.allowedUrl (config w) = true /\
  isUrlAllowed (HttpUtils := Demo.utils) Demo.deniedUrl (config w) = false /\
  exists w1 w2,
    openWrapper (H := Demo.utils) Demo.nativeOpen 1 "GET" Demo.allowedUrl true w
      = Return tt w1 /\
    openWrapper (H := Demo.utils) Demo.nativeOpen 1 "POST" Demo.deniedUrl false w1
      = Return tt w2 /\
    xhrMap w2 !! 1%positive =
      Some (XhrDetails.mk "GET" Demo.allowedUrl true None) /\
    xhrMap w2 !! 1%positive <>
      Some (XhrDetails.mk "POST" Demo.deniedUrl false None).
Proof.
  cbv zeta. split; [reflexivity|]. split; [reflexivity|].
  eexists _, _. split; [reflexivity|]. split; [reflexivity|].
  split; [vm_compute; reflexivity | vm_compute; discriminate].
Qed.

(** C4, as stated, fails: a Content-Length header of [-5] is parsed to the
    negative number -5, which is attached as [content_length]. *)
Lemma negative_content_length_is_attached :
  let w := Demo.answered 200 "OK" "-5" in
  XMLHttpRequest.getResponseHeader (deref w 1) "Content-Length" = Some "-5" /\
  exists w' d' x' s' r,
    handleXhrLoadEvent 1 w = Return tt w' /\
    xhrMap w' !! 1%positive = Some d' /\ XhrDetails.trace d' = Some x' /\
    XRayTraceEvent.subsegments x' = [s'] /\
    Http.response (Subsegment.http s') = Some r /\
    Http.content_length r = Some (JS.Int (-5)) /\ (-5 < 0)%Z.
Proof.
  cbv zeta. split; [reflexivity|].
  assert (Hd : xhrMap (Demo.answered 200 "OK" "-5") !! 1%positive
               = Some Demo.sentDetails) by (vm_compute; reflexivity).
  rewrite (handleXhrLoadEvent_sent _ _ _ _ Demo.sentSubsegment [] Hd eq_refl eq_refl).
  cbv zeta.
  eexists _, _, _, _, _. split; [reflexivity|].
  split; [apply lookup_xhrMap_set|].
  repeat (split; [reflexivity|]). reflexivity.
Qed.

(** C8.  The same request object is opened for an accepted URL, opened
    again for a rejected URL and sent: the record of the first call is
    still in the store, so [send] attaches the four listeners, starts a
    trace for the first URL and sets the X-Ray header on the request to
    the rejected URL. *)
Theorem rejected_reopen_is_still_traced :
  let w := Demo.reopenedWorld in
  isUrlAllowed (HttpUtils := Demo.utils) Demo.deniedUrl (Demo.cfg false) = false /\
  XMLHttpRequest.listeners (deref w 1) =
    [(load, HandleXhrLoadEvent); (error, HandleXhrErrorEvent);
     (abort, HandleXhrAbortEvent); (timeout, HandleXhrTimeoutEvent)] /\
  XMLHttpRequest.requestHeaders (deref w 1) =
    [("X-Amzn-Trace-Id", "Root=trace-1;Parent=seg-2;Sampled=1")] /\
  xhrMap w !! 1%positive = Some Demo.sentDetails.
Proof. cbv zeta. repeat split; vm_compute; reflexivity. Qed.

(** * Further properties of the plugin *)

(** ** What a listener can do to the world *)

Section Effects.

Lemma set_recorded_nil w : set_recorded (recorded w ++ []) w = w.
Proof. destruct w. unfold set_recorded; simpl. by rewrite app_nil_r. Qed.

Lemma assignSubsegment0_empty w xhr d x f :
  xhrMap w !! xhr = Some d -> XhrDetails.trace d = Some x ->
  XRayTraceEvent.subsegments x = [] ->
  exists e, assignSubsegment0 xhr f w = Throw e w.
Proof.
  intros Hd Hx Hs. unfold assignSubsegment0.
  rewrite bind_eq, (readTrace_sent _ _ _ _ Hd Hx), Hs. by eexists.
Qed.

Lemma callback_headless cb xhr w d x :
  xhrMap w !! xhr = Some d -> XhrDetails.trace d = Some x ->
  XRayTraceEvent.subsegments x = [] ->
  world_of (callback cb xhr w) = w \/
  world_of (callback cb xhr w) =
    xhrMap_set xhr
      (XhrDetails.set_trace (Some (XRayTraceEvent.set_end_time (clock w) x)) d) w.
Proof.
  intros Hd Hx Hs.
  destruct cb; simpl; [right | right | right | right | by left];
    unfold handleXhrLoadEvent, handleXhrErrorEvent, handleXhrAbortEvent,
      handleXhrTimeoutEvent, xhrMap_get, epochTime, gets;
    rewrite bind_eq, Hd; js_run;
    match goal with
    | |- context [assignSubsegment0 ?a ?f ?w0] =>
        destruct (assignSubsegment0_empty w0 a _ _ f
                    (lookup_xhrMap_set _ _ _) eq_refl Hs) as [e He];
        rewrite He
    end; reflexivity.
Qed.

(** What a listener can do to the world. *)
Lemma callback_effect cb xhr w :
  world_of (callback cb xhr w) = w \/
  exists d x x' tr ht,
    xhrMap w !! xhr = Some d /\ XhrDetails.trace d = Some x /\
    atMostOneTrace tr /\ atMostOneHttp ht /\
    world_of (callback cb xhr w) =
      set_recorded (recorded w ++ tr ++ ht)
        (xhrMap_set xhr (XhrDetails.set_trace (Some x') d) w).
Proof.
  destruct (xhrMap w !! xhr) as [d|] eqn:Hd;
    [| left; by rewrite callback_untracked].
  destruct (XhrDetails.trace d) as [x|] eqn:Hx;
    [| left; by erewrite callback_unsent].
  destruct (XRayTraceEvent.subsegments x) as [|s rest] eqn:Hs.
  { destruct (callback_headless cb xhr w d x Hd Hx Hs) as [He|He];
      [by left | right].
    exists d, x, (XRayTraceEvent.set_end_time (clock w) x), [], [].
    split; [done|]. split; [done|]. split; [by left|]. split; [by left|].
    rewrite He. simpl.
    change (recorded w ++ []) with (recorded (xhrMap_set xhr
      (XhrDetails.set_trace (Some (XRayTraceEvent.set_end_time (clock w) x)) d) w) ++ []).
    by rewrite set_recorded_nil. }
  assert (Htr : forall y, atMostOneTrace (traceEmission w y)).
  { intros y. unfold traceEmission. destruct (_ && _); [right; by eexists | by left]. }
  destruct cb; simpl; [ | | | | by left]; right.
  - rewrite (handleXhrLoadEvent_sent _ _ _ _ _ _ Hd Hx Hs). cbv zeta.
    eexists d, x, _, _, _. split; [done|]. split; [done|].
    split; [apply Htr|]. split; [|reflexivity].
    destruct (_ || _); [right | by left].
    eexists. split; [reflexivity|]. split; [reflexivity|]. left. split; [by eexists | done].
  - rewrite (handleXhrErrorEvent_sent _ _ _ _ _ _ Hd Hx Hs). cbv zeta.
    eexists d, x, _, _, _. split; [done|]. split; [done|].
    split; [apply Htr|]. split; [|reflexivity].
    right. eexists. split; [reflexivity|]. split; [reflexivity|]. right. split; [done | by eexists].
  - rewrite (handleXhrAbortEvent_sent _ _ _ _ _ _ Hd Hx Hs). cbv zeta.
    eexists d, x, _, _, _. split; [done|]. split; [done|].
    split; [apply Htr|]. split; [|reflexivity].
    right. eexists. split; [reflexivity|]. split; [reflexivity|]. right. split; [done | by eexists].
  - rewrite (handleXhrTimeoutEvent_sent _ _ _ _ _ _ Hd Hx Hs). cbv zeta.
    eexists d, x, _, _, _. split; [done|]. split; [done|].
    split; [apply Htr|]. split; [|reflexivity].
    right. eexists. split; [reflexivity|]. split; [reflexivity|]. right. split; [done | by eexists].
Qed.

End Effects.

(** ** Decimal numerals: [toString] and [parseInt] *)

Lemma digits_string_of_uint u rest :
  JS.digits (NilEmpty.string_of_uint u ++ rest)%string = uintDigits u ++ JS.digits rest.
Proof. induction u; simpl; [done | by rewrite IHu ..]. Qed.

Lemma uintDigits_revapp u v :
  uintDigits (Decimal.revapp u v) = rev (uintDigits u) ++ uintDigits v.
Proof.
  revert v. induction u; intros v; simpl; [done | rewrite IHu; simpl; by rewrite <- app_assoc ..].
Qed.

Lemma of_lu_digits u :
  Z.of_N (Unsigned.of_lu u) =
  fold_right (fun d acc => (d + 10 * acc)%Z) 0%Z (uintDigits u).
Proof.
  induction u; simpl; [done | rewrite <- IHu; lia ..].
Qed.

Lemma mathInt_rev l :
  JS.mathInt l = fold_right (fun d acc => (d + 10 * acc)%Z) 0%Z (rev l).
Proof.
  unfold JS.mathInt. rewrite fold_left_rev_right.
  generalize 0%Z. induction l as [|d l IH]; intros acc; simpl; [done|].
  rewrite IH. f_equal. lia.
Qed.

Lemma mathInt_to_uint n : JS.mathInt (uintDigits (N.to_uint n)) = Z.of_N n.
Proof.
  rewrite mathInt_rev.
  assert (Hrev : rev (uintDigits (N.to_uint n)) = uintDigits (Decimal.rev (N.to_uint n))).
  { unfold Decimal.rev. by rewrite uintDigits_revapp, app_nil_r. }
  rewrite Hrev, <- of_lu_digits, <- DecimalPos.Unsigned.of_uint_alt.
  f_equal. apply DecimalN.Unsigned.of_to.
Qed.

Lemma digit_starts c d s :
  JS.digit c = Some d ->
  JS.trimStart (String c s) = String c s /\
  JS.splitSign (String c s) = (1%Z, String c s).
Proof.
  destruct c as [b0 b1 b2 b3 b4 b5 b6 b7].
  destruct b0, b1, b2, b3, b4, b5, b6, b7; try discriminate; intros _; by split.
Qed.

Lemma parseInt_digit c d s :
  JS.digit c = Some d ->
  JS.parseInt (String c s) = JS.Int (JS.mathInt (JS.digits (String c s))).
Proof.
  intros Hd. unfold JS.parseInt.
  destruct (digit_starts c d s Hd) as [-> ->].
  simpl. rewrite Hd. f_equal. by rewrite Z.mul_1_l.
Qed.

Lemma toString_starts n : exists c d s, JS.toString n = String c s /\ JS.digit c = Some d.
Proof.
  unfold JS.toString.
  destruct (N.to_uint n) eqn:Hu; simpl; try by eexists _, _, _.
  exfalso. destruct n as [|p]; [discriminate|].
  by apply (DecimalPos.Unsigned.to_uint_nonnil p).
Qed.

(** [parseInt] reads back the number [toString] printed, whatever follows
    it, as long as that does not start with a digit. *)
Lemma parseInt_toString n rest :
  JS.digits rest = [] ->
  JS.parseInt (JS.toString n ++ rest)%string = JS.Int (Z.of_N n).
Proof.
  intros Hrest.
  destruct (toString_starts n) as (c & d & s & Hs & Hd).
  assert (Hdigits : JS.digits (JS.toString n ++ rest)%string = uintDigits (N.to_uint n)).
  { unfold JS.toString. by rewrite digits_string_of_uint, Hrest, app_nil_r. }
  rewrite Hs in *.
  change (String c s ++ rest)%string with (String c (s ++ rest)%string) in *.
  rewrite (parseInt_digit c d _ Hd), Hdigits.
  by rewrite mathInt_to_uint.
Qed.

Lemma string_app_empty (s : string) : (s ++ EmptyString)%string = s.
Proof. induction s as [|a s IH]; [done|]. change (String a (s ++ EmptyString)%string = String a s). by rewrite IH. Qed.

Lemma parseInt_errorMessage o :
  JS.parseInt (errorMessage o) = JS.Int (Z.of_N (XMLHttpRequest.status o)).
Proof.
  unfold errorMessage. destruct (JS.truthy _).
  - by apply parseInt_toString.
  - rewrite <- (string_app_empty (JS.toString _)). by apply parseInt_toString.
Qed.

(** ** The properties *)

Section Extras.
Context `{HttpUtils}.

(** X1.  Whatever the world and the request object are, a listener only
    appends to the recorded events: at most one trace event, then at most
    one HTTP event, and that HTTP event has version 1.0.0 and either a
    response or an error, never both and never neither. *)
Theorem listener_appends_trace_then_http
  (cb : Callback) (xhr : Handle) (w : World) :
  exists tr ht,
    recorded (world_of (callback cb xhr w)) = recorded w ++ tr ++ ht /\
    atMostOneTrace tr /\ atMostOneHttp ht.
Proof.
  destruct (callback_effect cb xhr w)
    as [-> | (d & x & x' & tr & ht & _ & _ & Htr & Hht & ->)].
  - exists [], []. split; [by rewrite app_nil_r | split; by left].
  - by exists tr, ht.
Qed.

(** X2.  A listener changes nothing but the recorded events and the trace
    of the record of its own request object: configuration, session,
    request objects, clock and identifier supply are as before, the records
    of all other objects are as before, and its own object has a record
    afterwards exactly when it had one, with the same method, URL and
    [async]. *)
Theorem listener_touches_only_its_record
  (cb : Callback) (xhr : Handle) (w : World) :
  let w' := world_of (callback cb xhr w) in
  config w' = config w /\ enableXRay w' = enableXRay w /\
  getSession w' = getSession w /\ heap w' = heap w /\
  clock w' = clock w /\ draws w' = draws w /\
  (forall other, other <> xhr -> xhrMap w' !! other = xhrMap w !! other) /\
  (xhrMap w' !! xhr = None <-> xhrMap w !! xhr = None) /\
  (forall d, xhrMap w !! xhr = Some d ->
     exists t, xhrMap w' !! xhr = Some (XhrDetails.set_trace t d)).
Proof.
  cbv zeta.
  destruct (callback_effect cb xhr w)
    as [-> | (d & x & x' & tr & ht & Hd & Hx & _ & _ & ->)].
  - repeat (split; [done|]). intros d Hd. exists (XhrDetails.trace d).
    rewrite Hd. by destruct d.
  - simpl. repeat (split; [done|]).
    split; [intros other Hne; by apply lookup_insert_ne|].
    split; [rewrite lookup_insert_eq, Hd; split; done|].
    intros d0 Hd0. rewrite Hd in Hd0. injection Hd0 as <-.
    exists (Some x'). apply lookup_insert_eq.
Qed.

(** X3.  [open] with an accepted URL stores a record with no trace, so a
    terminal listener that runs for the object before the next [send]
    throws a [TypeError] and leaves the world as [open] left it: nothing is
    recorded. *)
Theorem listener_between_open_and_send_throws
  (original : Open) (w : World) (this : Handle)
  (method url : string) (async : bool) (ty : EventName) :
  isUrlAllowed url (config w) = true ->
  exists w1 msg,
    openWrapper original this method url async w = Return tt w1 /\
    xhrMap w1 !! this = Some (XhrDetails.mk method url async None) /\
    callback (listener ty) this w1 = Throw (TypeError msg) w1.
Proof.
  intros Hok. rewrite openWrapper_eq, Hok.
  set (w1 := heap_set _ _ _).
  assert (Hd : xhrMap w1 !! this = Some (XhrDetails.mk method url async None))
    by apply lookup_insert_eq.
  destruct (assignTrace_unsent w1 this _
              (XRayTraceEvent.set_end_time (clock w1)) Hd eq_refl) as [[msg] He].
  exists w1, msg. split; [reflexivity|]. split; [exact Hd|].
  destruct ty; simpl;
    unfold handleXhrLoadEvent, handleXhrErrorEvent, handleXhrAbortEvent,
      handleXhrTimeoutEvent, xhrMap_get, epochTime, gets;
    rewrite bind_eq, Hd; cbv beta iota; rewrite !bind_eq; cbv beta iota;
    rewrite ?bind_eq; cbv beta iota; rewrite He; reflexivity.
Qed.

(** X4.  When a terminal listener runs for a request that was tracked and
    sent, the events it appends start with the trace event, if tracing is
    enabled and the session recorded, and nothing but HTTP events follows;
    the trace in that event is the trace the store holds afterwards, with
    its [end_time] already set. *)
Theorem trace_event_is_the_finalized_trace
  (ty : EventName) (w : World) (xhr : Handle) (d : XhrDetails.t)
  (x : XRayTraceEvent.t) (s : Subsegment.t) (rest : list Subsegment.t) :
  xhrMap w !! xhr = Some d ->
  XhrDetails.trace d = Some x ->
  XRayTraceEvent.subsegments x = s :: rest ->
  exists w' d' x' ht,
    callback (listener ty) xhr w = Return tt w' /\
    xhrMap w' !! xhr = Some d' /\ XhrDetails.trace d' = Some x' /\
    XRayTraceEvent.end_time x' = Some (clock w) /\
    recorded w' =
      recorded w ++
      (if enableXRay w && sessionRecorded w
       then [(XRAY_TRACE_EVENT_TYPE, TraceData x')] else []) ++ ht /\
    traceEvents ht = [].
Proof.
  intros Hd Hx Hs.
  destruct ty; simpl;
    [ rewrite (handleXhrLoadEvent_sent _ _ _ _ _ _ Hd Hx Hs)
    | rewrite (handleXhrErrorEvent_sent _ _ _ _ _ _ Hd Hx Hs)
    | rewrite (handleXhrAbortEvent_sent _ _ _ _ _ _ Hd Hx Hs)
    | rewrite (handleXhrTimeoutEvent_sent _ _ _ _ _ _ Hd Hx Hs) ];
    cbv zeta;
    (eexists _, _, _, _; split; [reflexivity|];
     split; [apply lookup_xhrMap_set|];
     split; [reflexivity|]; split; [reflexivity|];
     split; [reflexivity|]); try reflexivity.
  by destruct (_ || _).
Qed.

(** X5.  The load listener stores the status of the response, whatever it
    is, and never marks the subsegment as failed: [error] and [cause] are
    as [send] left them, and so are the identifiers, names, start times and
    the request description of the trace. *)
Theorem load_never_marks_error
  (w : World) (xhr : Handle) (d : XhrDetails.t) (x : XRayTraceEvent.t)
  (s : Subsegment.t) (rest : list Subsegment.t) :
  xhrMap w !! xhr = Some d ->
  XhrDetails.trace d = Some x ->
  XRayTraceEvent.subsegments x = s :: rest ->
  exists w' d' x' s' r,
    handleXhrLoadEvent xhr w = Return tt w' /\
    xhrMap w' !! xhr = Some d' /\ XhrDetails.trace d' = Some x' /\
    XRayTraceEvent.subsegments x' = s' :: rest /\
    Http.response (Subsegment.http s') = Some r /\
    Http.status r = XMLHttpRequest.status (deref w xhr) /\
    Subsegment.error s' = Subsegment.error s /\
    Subsegment.cause s' = Subsegment.cause s /\
    Http.request (Subsegment.http s') = Http.request (Subsegment.http s) /\
    Subsegment.id s' = Subsegment.id s /\
    Subsegment.name s' = Subsegment.name s /\
    Subsegment.start_time s' = Subsegment.start_time s /\
    XRayTraceEvent.name x' = XRayTraceEvent.name x /\
    XRayTraceEvent.id x' = XRayTraceEvent.id x /\
    XRayTraceEvent.trace_id x' = XRayTraceEvent.trace_id x /\
    XRayTraceEvent.start_time x' = XRayTraceEvent.start_time x.
Proof.
  intros Hd Hx Hs.
  rewrite (handleXhrLoadEvent_sent _ _ _ _ _ _ Hd Hx Hs). cbv zeta.
  eexists _, _, _, _, _. split; [reflexivity|].
  split; [apply lookup_xhrMap_set|].
  repeat (split; [reflexivity|]). reflexivity.
Qed.

Lemma deref_heap_set_ne k o w other :
  other <> k -> deref (heap_set k o w) other = deref w other.
Proof. intros Hne. unfold deref, heap_set; simpl. by rewrite lookup_insert_ne. Qed.

(** X6.  Where the native [open] returns, the [open] wrapper has handed it
    the request object as it was, with the arguments of the call, and has
    recorded no event; no other object and no other record has changed,
    and clock and identifier supply are as before.  The record of the
    object is replaced, without a trace, when the filter accepts the URL
    and is left alone when it does not. *)
Theorem open_wrapper_changes_only_the_record
  (original : Open) (w : World) (this : Handle)
  (method url : string) (async : bool) :
  let w' := world_of (openWrapper original this method url async w) in
  deref w' this = original method url async (deref w this) /\
  recorded w' = recorded w /\ clock w' = clock w /\ draws w' = draws w /\
  (forall other, other <> this ->
     deref w' other = deref w other /\
     xhrMap w' !! other = xhrMap w !! other) /\
  xhrMap w' !! this =
    (if isUrlAllowed url (config w)
     then Some (XhrDetails.mk method url async None)
     else xhrMap w !! this).
Proof.
  cbv zeta. rewrite openWrapper_eq. unfold world_of.
  split; [apply deref_heap_set|].
  destruct (isUrlAllowed url (config w)); simpl;
    repeat (split; [done|]).
  - split; [|apply lookup_insert_eq].
    intros other Hne. split; [by rewrite deref_heap_set_ne|].
    by apply lookup_insert_ne.
  - split; [|done].
    intros other Hne. split; [by rewrite deref_heap_set_ne | done].
Qed.

(** X7.  Where [setRequestHeader] and the native [send] return, the [send]
    wrapper has recorded no event, and the object it handed to the native
    [send] has the status, status text and response headers it had, every
    listener it had, and its earlier request headers in front; no other
    object and no other record has changed and the clock is as before.
    For an object without a record the native [send] gets the object as it
    was, and store and identifier supply are untouched. *)
Theorem send_wrapper_changes_only_request_and_record
  (original : Send) (w : World) (this : Handle) :
  let w' := world_of (sendWrapper original this w) in
  exists pre extra,
    deref w' this = original pre /\
    XMLHttpRequest.status pre = XMLHttpRequest.status (deref w this) /\
    XMLHttpRequest.statusText pre = XMLHttpRequest.statusText (deref w this) /\
    XMLHttpRequest.getResponseHeader pre =
      XMLHttpRequest.getResponseHeader (deref w this) /\
    (forall e, e ∈ XMLHttpRequest.listeners (deref w this) ->
               e ∈ XMLHttpRequest.listeners pre) /\
    XMLHttpRequest.requestHeaders pre =
      XMLHttpRequest.requestHeaders (deref w this) ++ extra /\
    recorded w' = recorded w /\ clock w' = clock w /\
    (forall other, other <> this ->
       deref w' other = deref w other /\
       xhrMap w' !! other = xhrMap w !! other) /\
    (xhrMap w !! this = None ->
       pre = deref w this /\ xhrMap w' = xhrMap w /\ draws w' = draws w).
Proof.
  assert (Hkeep : forall ty cb o,
            XMLHttpRequest.status (XMLHttpRequest.addEventListener ty cb o)
              = XMLHttpRequest.status o /\
            XMLHttpRequest.statusText (XMLHttpRequest.addEventListener ty cb o)
              = XMLHttpRequest.statusText o /\
            XMLHttpRequest.getResponseHeader (XMLHttpRequest.addEventListener ty cb o)
              = XMLHttpRequest.getResponseHeader o).
  { intros ty cb o. unfold XMLHttpRequest.addEventListener. by case_decide. }
  cbv zeta. destruct (xhrMap w !! this) as [d|] eqn:Hd.
  - rewrite (sendWrapper_tracked _ _ _ _ Hd). unfold world_of.
    exists (withHeader w d (withListeners (deref w this))),
      (if injecting w
       then [(X_AMZN_TRACE_ID,
              getAmznTraceIdHeaderValue (generateTraceId (S (draws w)))
                (generateSegmentId (S (S (draws w)))))]
       else []).
    split; [apply deref_heap_set|].
    assert (Hfields : forall o,
              XMLHttpRequest.status (withHeader w d o) = XMLHttpRequest.status o /\
              XMLHttpRequest.statusText (withHeader w d o) = XMLHttpRequest.statusText o /\
              XMLHttpRequest.getResponseHeader (withHeader w d o)
                = XMLHttpRequest.getResponseHeader o).
    { intros o. unfold withHeader. by destruct (injecting w). }
    assert (Hl : forall o,
              XMLHttpRequest.status (withListeners o) = XMLHttpRequest.status o /\
              XMLHttpRequest.statusText (withListeners o) = XMLHttpRequest.statusText o /\
              XMLHttpRequest.getResponseHeader (withListeners o)
                = XMLHttpRequest.getResponseHeader o).
    { intros o. unfold withListeners.
      destruct (Hkeep timeout HandleXhrTimeoutEvent
                  (XMLHttpRequest.addEventListener abort HandleXhrAbortEvent
                     (XMLHttpRequest.addEventListener error HandleXhrErrorEvent
                        (XMLHttpRequest.addEventListener load HandleXhrLoadEvent o))))
        as (-> & -> & ->).
      destruct (Hkeep abort HandleXhrAbortEvent
                  (XMLHttpRequest.addEventListener error HandleXhrErrorEvent
                     (XMLHttpRequest.addEventListener load HandleXhrLoadEvent o)))
        as (-> & -> & ->).
      destruct (Hkeep error HandleXhrErrorEvent
                  (XMLHttpRequest.addEventListener load HandleXhrLoadEvent o))
        as (-> & -> & ->).
      apply Hkeep. }
    destruct (Hfields (withListeners (deref w this))) as (-> & -> & ->).
    destruct (Hl (deref w this)) as (-> & -> & ->).
    repeat (split; [reflexivity|]).
    split.
    { intros e He. rewrite listeners_withHeader. unfold withListeners.
      by repeat apply listeners_addEventListener_mono. }
    split.
    { unfold withHeader. destruct (injecting w); simpl;
        rewrite requestHeaders_withListeners; [done | by rewrite app_nil_r]. }
    repeat (split; [reflexivity|]).
    split; [|done].
    intros other Hne. split; [by rewrite deref_heap_set_ne|].
    simpl. by apply lookup_insert_ne.
  - rewrite (sendWrapper_untracked _ _ _ Hd). unfold world_of.
    exists (deref w this), [].
    split; [apply deref_heap_set|].
    repeat (split; [reflexivity|]).
    split; [done|]. split; [by rewrite app_nil_r|].
    repeat (split; [reflexivity|]).
    split; [|done].
    intros other Hne. split; [by rewrite deref_heap_set_ne | done].
Qed.

Lemma follows_refl w : follows w w.
Proof.
  split; [done|]. split; [exists []; by rewrite app_nil_r | lia].
Qed.

Lemma follows_trans w1 w2 w3 : follows w1 w2 -> follows w2 w3 -> follows w1 w3.
Proof.
  intros (Hk1 & (e1 & Hr1) & Hc1) (Hk2 & (e2 & Hr2) & Hc2).
  split; [by intros k Hk; apply Hk2, Hk1|].
  split; [exists (e1 ++ e2); by rewrite Hr2, Hr1, app_assoc | lia].
Qed.

Lemma follows_callback cb xhr w : follows w (world_of (callback cb xhr w)).
Proof.
  destruct (callback_effect cb xhr w)
    as [-> | (d & x & x' & tr & ht & Hd & Hx & _ & _ & ->)];
    [apply follows_refl|].
  split.
  - intros k Hk. simpl. destruct (decide (xhr = k)) as [->|Hne].
    + rewrite lookup_insert_eq. by eexists.
    + by rewrite lookup_insert_ne.
  - split; [by eexists | exact (Z.le_refl _)].
Qed.

Lemma follows_dispatchEvent ty xhr w : follows w (dispatchEvent ty xhr w).
Proof.
  unfold dispatchEvent. generalize (XMLHttpRequest.listeners (deref w xhr)).
  intros l. revert w. induction l as [|e l IH]; intros w; simpl;
    [apply follows_refl|].
  eapply follows_trans; [|apply IH].
  case_decide; [apply follows_callback | apply follows_refl].
Qed.

Lemma follows_exec nativeOpen nativeSend a w :
  follows w (exec nativeOpen nativeSend a w).
Proof.
  destruct a as [this m u a|this|ty this|this st txt hdr|n|s]; unfold follows; simpl.
  - rewrite openWrapper_eq. simpl.
    split; [|split; [exists []; simpl; destruct (isUrlAllowed _ _); by rewrite app_nil_r
                    | destruct (isUrlAllowed _ _); simpl; lia]].
    intros k Hk. destruct (isUrlAllowed _ _); simpl; [|done].
    destruct (decide (this = k)) as [->|Hne].
    + rewrite lookup_insert_eq. by eexists.
    + by rewrite lookup_insert_ne.
  - destruct (xhrMap w !! this) as [d|] eqn:Hd.
    + erewrite sendWrapper_tracked by eassumption. simpl.
      split; [|split; [exists []; by rewrite app_nil_r | simpl; lia]].
      intros k Hk. destruct (decide (this = k)) as [->|Hne].
      * rewrite lookup_insert_eq. by eexists.
      * by rewrite lookup_insert_ne.
    + rewrite sendWrapper_untracked by done. simpl.
      split; [done|]. split; [exists []; by rewrite app_nil_r | simpl; lia].
  - apply (follows_dispatchEvent ty this w).
  - split; [done|]. split; [exists []; simpl; by rewrite app_nil_r | simpl; lia].
  - split; [done|]. split; [exists []; simpl; by rewrite app_nil_r | simpl; lia].
  - split; [done|]. split; [exists []; simpl; by rewrite app_nil_r | simpl; lia].
Qed.

Lemma lookup_callback_None cb h xhr w :
  xhrMap w !! xhr = None -> xhrMap (world_of (callback cb h w)) !! xhr = None.
Proof.
  intros Hn.
  destruct (callback_effect cb h w)
    as [-> | (d & x & x' & tr & ht & Hd & _ & _ & _ & ->)]; [done|].
  simpl. rewrite lookup_insert_ne; [done|]. intros ->. congruence.
Qed.

(** X8.  The store only grows, and only [open] makes it grow.  Whatever
    the page and the host do, and from whatever world, an object that has
    a record keeps one: nothing is ever deleted from [xhrMap].  And an
    object without a record has none after [send] on any object, none
    after a listener of the plugin has run for any object, and none after
    [open] on another object. *)
Theorem store_never_evicts_and_only_open_adds
  (nativeOpen : Open) (nativeSend : Send) (l : list Action) (w : World) :
  (forall xhr, is_Some (xhrMap w !! xhr) ->
               is_Some (xhrMap (run nativeOpen nativeSend l w) !! xhr)) /\
  (forall this xhr,
     xhrMap w !! xhr = None ->
     xhrMap (world_of (sendWrapper nativeSend this w)) !! xhr = None) /\
  (forall ty this xhr,
     xhrMap w !! xhr = None ->
     xhrMap (world_of (callback (listener ty) this w)) !! xhr = None) /\
  (forall this method url async xhr,
     xhr <> this ->
     xhrMap w !! xhr = None ->
     xhrMap (world_of (openWrapper nativeOpen this method url async w)) !! xhr = None).
Proof.
  split; [|split; [|split]].
  - revert w. induction l as [|a l IH]; intros w xhr Hk; simpl; [done|].
    apply IH. by apply (follows_exec nativeOpen nativeSend a w).
  - intros this xhr Hn. destruct (xhrMap w !! this) as [d|] eqn:Hd.
    + rewrite (sendWrapper_tracked _ _ _ _ Hd). simpl.
      rewrite lookup_insert_ne; [done|]. intros ->. congruence.
    + by rewrite sendWrapper_untracked.
  - intros ty this xhr Hn. by apply lookup_callback_None.
  - intros this method url async xhr Hne Hn.
    rewrite openWrapper_eq. simpl.
    destruct (isUrlAllowed _ _); simpl; [by rewrite lookup_insert_ne | done].
Qed.

(** X9.  The plugin does not notice a second terminal event for the same
    request: after any terminal listener has run for a request that was
    tracked and sent, another one runs in full again, so two failure events
    append two HTTP events. *)
Theorem second_terminal_event_is_processed_again
  (ty1 ty2 : EventName) (w : World) (xhr : Handle) (d : XhrDetails.t)
  (x : XRayTraceEvent.t) (s : Subsegment.t) (rest : list Subsegment.t) :
  xhrMap w !! xhr = Some d ->
  XhrDetails.trace d = Some x ->
  XRayTraceEvent.subsegments x = s :: rest ->
  exists w1 w2 d2 x2 s2,
    callback (listener ty1) xhr w = Return tt w1 /\
    callback (listener ty2) xhr w1 = Return tt w2 /\
    xhrMap w2 !! xhr = Some d2 /\ XhrDetails.trace d2 = Some x2 /\
    XRayTraceEvent.subsegments x2 = s2 :: rest /\
    (ty1 <> load -> ty2 <> load ->
     exists h1 h2,
       httpEvents (recorded w2) = httpEvents (recorded w) ++ [h1; h2]).
Proof.
  intros Hd Hx Hs.
  assert (Hfirst : exists w1 d1 x1 s1 ht,
            callback (listener ty1) xhr w = Return tt w1 /\
            xhrMap w1 !! xhr = Some d1 /\ XhrDetails.trace d1 = Some x1 /\
            XRayTraceEvent.subsegments x1 = s1 :: rest /\
            httpEvents (recorded w1) = httpEvents (recorded w) ++ ht /\
            (ty1 <> load -> exists h, ht = [h])).
  { destruct ty1; simpl;
      [ rewrite (handleXhrLoadEvent_sent _ _ _ _ _ _ Hd Hx Hs)
      | rewrite (handleXhrErrorEvent_sent _ _ _ _ _ _ Hd Hx Hs)
      | rewrite (handleXhrAbortEvent_sent _ _ _ _ _ _ Hd Hx Hs)
      | rewrite (handleXhrTimeoutEvent_sent _ _ _ _ _ _ Hd Hx Hs) ];
      cbv zeta;
      (eexists _, _, _, _, _; split; [reflexivity|];
       split; [apply lookup_xhrMap_set|];
       split; [reflexivity|]; split; [reflexivity|];
       split; [simpl; rewrite !httpEvents_app, httpEvents_traceEmission;
               reflexivity|]);
      intros Hne; try done; by eexists. }
  destruct Hfirst as (w1 & d1 & x1 & s1 & ht1 & Hrun1 & Hd1 & Hx1 & Hs1 & Hev1 & Hone1).
  assert (Hsecond : exists w2 d2 x2 s2 ht,
            callback (listener ty2) xhr w1 = Return tt w2 /\
            xhrMap w2 !! xhr = Some d2 /\ XhrDetails.trace d2 = Some x2 /\
            XRayTraceEvent.subsegments x2 = s2 :: rest /\
            httpEvents (recorded w2) = httpEvents (recorded w1) ++ ht /\
            (ty2 <> load -> exists h, ht = [h])).
  { destruct ty2; simpl;
      [ rewrite (handleXhrLoadEvent_sent _ _ _ _ _ _ Hd1 Hx1 Hs1)
      | rewrite (handleXhrErrorEvent_sent _ _ _ _ _ _ Hd1 Hx1 Hs1)
      | rewrite (handleXhrAbortEvent_sent _ _ _ _ _ _ Hd1 Hx1 Hs1)
      | rewrite (handleXhrTimeoutEvent_sent _ _ _ _ _ _ Hd1 Hx1 Hs1) ];
      cbv zeta;
      (eexists _, _, _, _, _; split; [reflexivity|];
       split; [apply lookup_xhrMap_set|];
       split; [reflexivity|]; split; [reflexivity|];
       split; [simpl; rewrite !httpEvents_app, httpEvents_traceEmission;
               reflexivity|]);
      intros Hne; try done; by eexists. }
  destruct Hsecond as (w2 & d2 & x2 & s2 & ht2 & Hrun2 & Hd2 & Hx2 & Hs2 & Hev2 & Hone2).
  exists w1, w2, d2, x2, s2. repeat (split; [assumption|]).
  intros Hn1 Hn2. destruct (Hone1 Hn1) as [h1 ->]. destruct (Hone2 Hn2) as [h2 ->].
  exists h1, h2. by rewrite Hev2, Hev1, <- app_assoc.
Qed.

(** The listeners after [addEventListener]: the earlier ones, and the new
    one at the end when it was not among them. *)
Lemma listeners_addEventListener_eq ty cb o :
  XMLHttpRequest.listeners (XMLHttpRequest.addEventListener ty cb o) =
  XMLHttpRequest.listeners o ++
  (if decide ((ty, cb) ∈ XMLHttpRequest.listeners o) then [] else [(ty, cb)]).
Proof.
  unfold XMLHttpRequest.addEventListener. case_decide; [by rewrite app_nil_r | done].
Qed.

Lemma pluginAdded_step before added ty o :
  XMLHttpRequest.listeners o = before ++ added ->
  pluginAdded before added ->
  exists added',
    XMLHttpRequest.listeners (XMLHttpRequest.addEventListener ty (listener ty) o)
      = before ++ added' /\
    pluginAdded before added'.
Proof.
  intros Hl [Hnd Hok]. rewrite listeners_addEventListener_eq, Hl.
  case_decide as Hin.
  - exists added. by rewrite app_nil_r.
  - exists (added ++ [(ty, listener ty)]). split; [by rewrite app_assoc|].
    split.
    + apply NoDup_app. split; [done|]. split; [|apply NoDup_singleton].
      intros e He Hs. apply list_elem_of_singleton in Hs. subst.
      apply Hin, elem_of_app. by right.
    + intros e He. apply elem_of_app in He as [He|He]; [by apply Hok|].
      apply list_elem_of_singleton in He. subst. split; [|by eexists].
      intros Hb. apply Hin, elem_of_app. by left.
Qed.

Lemma pluginAdded_withListeners o :
  exists added,
    XMLHttpRequest.listeners (withListeners o) = XMLHttpRequest.listeners o ++ added /\
    pluginAdded (XMLHttpRequest.listeners o) added.
Proof.
  unfold withListeners.
  assert (H0 : XMLHttpRequest.listeners o = XMLHttpRequest.listeners o ++ [])
    by by rewrite app_nil_r.
  assert (P0 : pluginAdded (XMLHttpRequest.listeners o) []).
  { split; [apply NoDup_nil_2|]. intros e He. by apply elem_of_nil in He. }
  destruct (pluginAdded_step _ _ load _ H0 P0) as (a1 & H1 & P1).
  destruct (pluginAdded_step _ _ error _ H1 P1) as (a2 & H2 & P2).
  destruct (pluginAdded_step _ _ abort _ H2 P2) as (a3 & H3 & P3).
  destruct (pluginAdded_step _ _ timeout _ H3 P3) as (a4 & H4 & P4).
  by exists a4.
Qed.

(** X10.  [send] on a tracked request registers each of the plugin's four
    listeners at most once.  The object handed to the native [send] has
    all four; the listeners it had before are still there, in their order
    and in front; what was added are listeners of the plugin that were
    missing, each once.  So nothing is added to an object that has the
    four already (one that was sent before and is sent again), and a list
    of listeners without repetition stays without. *)
Theorem send_registers_each_listener_once
  (original : Send) (w : World) (this : Handle) (d : XhrDetails.t) :
  xhrMap w !! this = Some d ->
  let before := XMLHttpRequest.listeners (deref w this) in
  exists pre added,
    deref (world_of (sendWrapper original this w)) this = original pre /\
    XMLHttpRequest.listeners pre = before ++ added /\
    (forall ty, (ty, listener ty) ∈ XMLHttpRequest.listeners pre) /\
    NoDup added /\
    (forall e, e ∈ added -> (e ∉ before) /\ exists ty, e = (ty, listener ty)) /\
    ((forall ty, (ty, listener ty) ∈ before) -> added = []) /\
    (NoDup before -> NoDup (XMLHttpRequest.listeners pre)).
Proof.
  intros Hd before.
  destruct (pluginAdded_withListeners (deref w this)) as (added & Hl & Hnd & Hok).
  fold before in Hl, Hok.
  exists (withHeader w d (withListeners (deref w this))), added.
  rewrite (sendWrapper_tracked _ _ _ _ Hd). unfold world_of.
  split; [apply deref_heap_set|].
  rewrite listeners_withHeader.
  split; [exact Hl|]. split; [intros ty; apply listeners_withListeners|].
  split; [exact Hnd|]. split; [exact Hok|]. split.
  - intros Hall. destruct added as [|e added]; [done|].
    destruct (Hok e) as [Hnot [ty ->]]; [by left|].
    by destruct (Hnot (Hall ty)).
  - intros Hb. rewrite Hl. apply NoDup_app. split; [done|]. split; [|done].
    intros e He Ha. by destruct (Hok e Ha) as [Hnot _].
Qed.

(** X11.  In every world the page and the host can reach from a freshly
    loaded plugin, a listener is all or nothing: either it returns
    normally, or it throws and the world is exactly as before.  It never
    stops half way through finalising a trace. *)
Theorem listener_is_all_or_nothing
  (nativeOpen : Open) (nativeSend : Send)
  (cfg : HttpPluginConfig.t) (xray : bool) (session : option Session.t)
  (now : Z) (l : list Action) (cb : Callback) (xhr : Handle) :
  let w := run nativeOpen nativeSend l (initial cfg xray session now) in
  (exists w', callback cb xhr w = Return tt w') \/
  (exists e, callback cb xhr w = Throw e w).
Proof.
  intros w.
  assert (HI : Inv w) by apply Inv_run, Inv_initial.
  destruct (xhrMap w !! xhr) as [d|] eqn:Hd;
    [| left; exists w; by apply callback_untracked].
  destruct (XhrDetails.trace d) as [x|] eqn:Hx.
  - left. destruct (HI _ _ _ Hd Hx) as (s & Hs & _).
    destruct cb; simpl;
      [ rewrite (handleXhrLoadEvent_sent _ _ _ _ _ _ Hd Hx Hs)
      | rewrite (handleXhrErrorEvent_sent _ _ _ _ _ _ Hd Hx Hs)
      | rewrite (handleXhrAbortEvent_sent _ _ _ _ _ _ Hd Hx Hs)
      | rewrite (handleXhrTimeoutEvent_sent _ _ _ _ _ _ Hd Hx Hs)
      | ]; by eexists.
  - destruct (assignTrace_unsent w xhr d
                (XRayTraceEvent.set_end_time (clock w)) Hd Hx) as [e He].
    destruct cb; simpl; [right; exists e | right; exists e | right; exists e
                        | right; exists e | left; by eexists];
      unfold handleXhrLoadEvent, handleXhrErrorEvent, handleXhrAbortEvent,
        handleXhrTimeoutEvent, xhrMap_get, epochTime, gets;
      rewrite bind_eq, Hd; cbv beta iota; rewrite !bind_eq; cbv beta iota;
      rewrite ?bind_eq; cbv beta iota; rewrite He; reflexivity.
Qed.

Lemma Described_ext w w' :
  xhrMap w' = xhrMap w -> config w' = config w -> Described w -> Described w'.
Proof.
  intros Hm Hc HI xhr d x Hd Hx. rewrite Hm in Hd.
  destruct (HI _ _ _ Hd Hx) as (s & Hs). exists s. by rewrite Hc.
Qed.

Lemma Described_store w k d :
  (forall x, XhrDetails.trace d = Some x -> describes w d x) ->
  Described w -> Described (xhrMap_set k d w).
Proof.
  intros Hk HI xhr d' x Hd Hx.
  destruct (decide (k = xhr)) as [->|Hne].
  - rewrite lookup_xhrMap_set in Hd. simplify_eq. by apply Hk.
  - rewrite lookup_xhrMap_set_ne in Hd by done. by apply (HI xhr).
Qed.

Lemma describes_finalized w d e s s' x :
  XRayTraceEvent.subsegments x = [s] ->
  Subsegment.name s' = Subsegment.name s ->
  Http.request (Subsegment.http s') = Http.request (Subsegment.http s) ->
  Subsegment.start_time s' = Subsegment.start_time s ->
  Subsegment.end_time s' = Some e ->
  describes w d x ->
  describes w (XhrDetails.set_trace (Some (finalized e [s'] x)) d)
    (finalized e [s'] x).
Proof.
  intros Hs Hn Hr Hst He (s0 & Hs0 & Hname & Hsn & Hreq & Hstart & _).
  rewrite Hs in Hs0. simplify_eq.
  exists s'. simpl. by rewrite Hn, Hr, Hst, He.
Qed.

Lemma Described_callback cb xhr w :
  Described w -> Described (world_of (callback cb xhr w)).
Proof.
  intros HI.
  destruct (xhrMap w !! xhr) as [d|] eqn:Hd;
    [| by rewrite callback_untracked].
  destruct (XhrDetails.trace d) as [x|] eqn:Hx;
    [| by erewrite callback_unsent].
  pose proof (HI _ _ _ Hd Hx) as Hdesc.
  destruct Hdesc as (s & Hs & Hrest).
  assert (Hdesc : describes w d x) by (exists s; done).
  destruct cb; simpl; [ erewrite handleXhrLoadEvent_sent by eassumption
                      | erewrite handleXhrErrorEvent_sent by eassumption
                      | erewrite handleXhrAbortEvent_sent by eassumption
                      | erewrite handleXhrTimeoutEvent_sent by eassumption
                      | done ];
    cbv zeta;
    (eapply Described_ext; [reflexivity | reflexivity |]);
    apply Described_store; try done;
    intros x' Hx'; simpl in Hx'; simplify_eq;
    by eapply describes_finalized.
Qed.

Lemma Described_dispatchEvent ty xhr w :
  Described w -> Described (dispatchEvent ty xhr w).
Proof.
  unfold dispatchEvent. generalize (XMLHttpRequest.listeners (deref w xhr)).
  intros l. revert w. induction l as [|[ty' cb] l IH]; intros w HI; simpl; [done|].
  apply IH. case_decide; [by apply Described_callback | done].
Qed.

Lemma Described_exec nativeOpen nativeSend a w :
  Described w -> Described (exec nativeOpen nativeSend a w).
Proof.
  intros HI. destruct a as [this m u a|this|ty this|this st txt hdr|n|s]; simpl.
  - rewrite openWrapper_eq. simpl.
    eapply (Described_ext
              (if isUrlAllowed u (config w)
               then xhrMap_set this (XhrDetails.mk m u a None) w else w));
      [by destruct (isUrlAllowed _ _) | by destruct (isUrlAllowed _ _) |].
    destruct (isUrlAllowed _ _); [|done].
    apply Described_store; [|done]. by intros x Hx.
  - destruct (xhrMap w !! this) as [d|] eqn:Hd.
    + erewrite sendWrapper_tracked by eassumption. simpl.
      eapply (Described_ext
                (xhrMap_set this (XhrDetails.set_trace (Some (freshTrace w d)) d) w));
        [reflexivity | reflexivity |].
      apply Described_store; [|done]. intros x Hx. simpl in Hx. simplify_eq.
      by eexists.
    + rewrite sendWrapper_untracked by done. simpl.
      by eapply Described_ext.
  - by apply Described_dispatchEvent.
  - by eapply Described_ext.
  - by eapply Described_ext.
  - by eapply Described_ext.
Qed.

Lemma config_callback cb xhr w : config (world_of (callback cb xhr w)) = config w.
Proof.
  by destruct (callback_effect cb xhr w)
    as [-> | (d & x & x' & tr & ht & _ & _ & _ & _ & ->)].
Qed.

Lemma config_exec nativeOpen nativeSend a w :
  config (exec nativeOpen nativeSend a w) = config w.
Proof.
  destruct a as [this m u a|this|ty this|this st txt hdr|n|s]; simpl;
    try reflexivity.
  - rewrite openWrapper_eq. simpl. by destruct (isUrlAllowed _ _).
  - destruct (xhrMap w !! this) as [d0|] eqn:Hd0.
    + by erewrite sendWrapper_tracked by eassumption.
    + by rewrite sendWrapper_untracked.
  - unfold dispatchEvent.
    generalize (XMLHttpRequest.listeners (deref w this)). intros l.
    revert w. induction l as [|e l IH]; intros w; simpl; [done|].
    rewrite IH. case_decide; [apply config_callback | done].
Qed.

(** X12.  In every world the page and the host can reach from a freshly
    loaded plugin, the trace of a record describes that record: it is
    named after the configured service and has exactly one subsegment,
    named after the host of the record's URL, whose request carries the
    record's method with [traced] set; root segment and subsegment have
    the same start time and the same end time. *)
Theorem stored_trace_describes_its_record
  (nativeOpen : Open) (nativeSend : Send)
  (cfg : HttpPluginConfig.t) (xray : bool) (session : option Session.t)
  (now : Z) (l : list Action)
  (xhr : Handle) (d : XhrDetails.t) (x : XRayTraceEvent.t) :
  let w := run nativeOpen nativeSend l (initial cfg xray session now) in
  xhrMap w !! xhr = Some d ->
  XhrDetails.trace d = Some x ->
  exists s,
    XRayTraceEvent.subsegments x = [s] /\
    XRayTraceEvent.name x = HttpPluginConfig.logicalServiceName cfg /\
    Subsegment.name s = requestInfoToHostname (XhrDetails.url d) /\
    Http.request (Subsegment.http s) =
      Http.mkRequest (XhrDetails.method d) true /\
    Subsegment.start_time s = XRayTraceEvent.start_time x /\
    Subsegment.end_time s = XRayTraceEvent.end_time x.
Proof.
  intros w Hd Hx.
  assert (Hrun : forall l0 w0, Described w0 ->
            Described (run nativeOpen nativeSend l0 w0) /\
            config (run nativeOpen nativeSend l0 w0) = config w0).
  { induction l0 as [|a l0 IH]; intros w0 HI; simpl; [done|].
    destruct (IH (exec nativeOpen nativeSend a w0)) as [HD Hc];
      [by apply Described_exec|].
    split; [done|]. by rewrite Hc, config_exec. }
  destruct (Hrun l (initial cfg xray session now)) as [HD Hc].
  { intros k d0 x0 Hk. simpl in Hk. by rewrite lookup_empty in Hk. }
  destruct (HD _ _ _ Hd Hx) as (s & Hs & Hname & Hrest).
  exists s. split; [done|]. split; [|done].
  rewrite Hname. unfold w. by rewrite Hc.
Qed.

(** X13.  The message of a network error starts with the status in
    decimal, so that [parseInt] reads the status back from it; without a
    status text the message is the status alone.  The same message goes to
    the cause kept in the trace and to the [XhrError] of the HTTP event. *)
Theorem network_error_message_carries_status
  (w : World) (xhr : Handle) (d : XhrDetails.t) (x : XRayTraceEvent.t)
  (s : Subsegment.t) (rest : list Subsegment.t) :
  xhrMap w !! xhr = Some d ->
  XhrDetails.trace d = Some x ->
  XRayTraceEvent.subsegments x = s :: rest ->
  let status := XMLHttpRequest.status (deref w xhr) in
  exists w' d' x' s' m evs,
    handleXhrErrorEvent xhr w = Return tt w' /\
    xhrMap w' !! xhr = Some d' /\ XhrDetails.trace d' = Some x' /\
    XRayTraceEvent.subsegments x' = s' :: rest /\
    Subsegment.cause s' =
      Some (Subsegment.mkCause
              [Subsegment.mkException "XMLHttpRequest error" (Some m)]) /\
    recorded w' = recorded w ++ evs /\
    httpEvents evs =
      [HttpEvent.mk "1.0.0" (HttpEvent.mkRequest (XhrDetails.method d)) None
         (Some (errorEventToJsErrorEvent (ErrorEvent.mk "error" (XhrError m))
                  (HttpPluginConfig.stackTraceLength (config w))))] /\
    JS.parseInt m = JS.Int (Z.of_N status) /\
    (XMLHttpRequest.statusText (deref w xhr) = EmptyString ->
     m = JS.toString status).
Proof.
  intros Hd Hx Hs status.
  rewrite (handleXhrErrorEvent_sent _ _ _ _ _ _ Hd Hx Hs). cbv zeta.
  eexists _, _, _, _, (errorMessage (deref w xhr)), _.
  split; [reflexivity|]. split; [apply lookup_xhrMap_set|].
  split; [reflexivity|]. split; [reflexivity|]. split; [reflexivity|].
  split; [reflexivity|].
  split; [by rewrite httpEvents_app, httpEvents_traceEmission|].
  split; [apply parseInt_errorMessage|].
  intros Htxt. unfold errorMessage. by rewrite Htxt.
Qed.

End Extras.

(** ** The further properties at concrete inputs *)

Lemma listener_between_open_and_send_throws_witness :
  let w := initial (Demo.cfg false) true (Some (Session.mk true)) 1000 in
  isUrlAllowed (HttpUtils := Demo.utils) Demo.allowedUrl (config w) = true /\
  exists w1 msg,
    openWrapper (H := Demo.utils) Demo.nativeOpen 1 "GET" Demo.allowedUrl true w
      = Return tt w1 /\
    callback (listener load) 1 w1 = Throw (TypeError msg) w1.
Proof.
  cbv zeta. split; [reflexivity|].
  destruct (listener_between_open_and_send_throws (H := Demo.utils)
              Demo.nativeOpen
              (initial (Demo.cfg false) true (Some (Session.mk true)) 1000)
              1 "GET" Demo.allowedUrl true load)
    as (w1 & msg & Hopen & _ & Hthrow); [reflexivity|].
  exists w1, msg. split; assumption.
Defined.

Lemma trace_event_is_the_finalized_trace_witness :
  let w := Demo.answered 200 "OK" "12" in
  xhrMap w !! 1%positive = Some Demo.sentDetails /\
  exists w' x' ht,
    callback (listener load) 1 w = Return tt w' /\
    XRayTraceEvent.end_time x' = Some 1005%Z /\
    recorded w' = recorded w ++ [(XRAY_TRACE_EVENT_TYPE, TraceData x')] ++ ht.
Proof.
  cbv zeta. split; [vm_compute; reflexivity|].
  destruct (trace_event_is_the_finalized_trace load
              (Demo.answered 200 "OK" "12") 1 Demo.sentDetails Demo.sentTrace
              Demo.sentSubsegment [])
    as (w' & d' & x' & ht & Hrun & _ & _ & Hend & Hrec & _);
    [vm_compute; reflexivity | reflexivity | reflexivity |].
  exists w', x', ht. split; [exact Hrun|]. split; [exact Hend|]. exact Hrec.
Defined.

Lemma load_never_marks_error_witness :
  let w := Demo.answered 500 "Internal Server Error" "12" in
  xhrMap w !! 1%positive = Some Demo.sentDetails /\
  exists w' d' x' s' r,
    handleXhrLoadEvent 1 w = Return tt w' /\
    xhrMap w' !! 1%positive = Some d' /\ XhrDetails.trace d' = Some x' /\
    XRayTraceEvent.subsegments x' = [s'] /\
    Http.response (Subsegment.http s') = Some r /\
    Http.status r = 500%N /\
    Subsegment.error s' = None /\ Subsegment.cause s' = None.
Proof.
  cbv zeta. split; [vm_compute; reflexivity|].
  destruct (load_never_marks_error
              (Demo.answered 500 "Internal Server Error" "12") 1
              Demo.sentDetails Demo.sentTrace Demo.sentSubsegment [])
    as (w' & d' & x' & s' & r & Hrun & Hd' & Hx' & Hs' & Hr & Hst & Herr & Hcause & _);
    [vm_compute; reflexivity | reflexivity | reflexivity |].
  exists w', d', x', s', r.
  split; [exact Hrun|]. split; [exact Hd'|]. split; [exact Hx'|].
  split; [exact Hs'|]. split; [exact Hr|]. split; [exact Hst|].
  split; [exact Herr | exact Hcause].
Defined.

Lemma second_terminal_event_is_processed_again_witness :
  let w := Demo.answered 0 EmptyString "0" in
  xhrMap w !! 1%positive = Some Demo.sentDetails /\
  exists w1 w2 h1 h2,
    callback (listener abort) 1 w = Return tt w1 /\
    callback (listener timeout) 1 w1 = Return tt w2 /\
    httpEvents (recorded w2) = [h1; h2].
Proof.
  cbv zeta. split; [vm_compute; reflexivity|].
  destruct (second_terminal_event_is_processed_again abort timeout
              (Demo.answered 0 EmptyString "0") 1 Demo.sentDetails
              Demo.sentTrace Demo.sentSubsegment [])
    as (w1 & w2 & d2 & x2 & s2 & Hrun1 & Hrun2 & _ & _ & _ & Htwo);
    [vm_compute; reflexivity | reflexivity | reflexivity |].
  destruct Htwo as (h1 & h2 & Hev); [discriminate | discriminate |].
  exists w1, w2, h1, h2. split; [exact Hrun1|]. split; [exact Hrun2|]. exact Hev.
Defined.

Lemma send_registers_each_listener_once_witness :
  let w := Demo.sentWorld in
  xhrMap w !! 1%positive = Some Demo.sentDetails /\
  exists pre,
    deref (world_of (sendWrapper (H := Demo.utils) Demo.nativeSend 1 w)) 1 = pre /\
    XMLHttpRequest.listeners pre = XMLHttpRequest.listeners (deref w 1) /\
    length (XMLHttpRequest.listeners pre) = 4.
Proof.
  cbv zeta. split; [vm_compute; reflexivity|].
  destruct (send_registers_each_listener_once (H := Demo.utils) Demo.nativeSend
              Demo.sentWorld 1 Demo.sentDetails)
    as (pre & added & Hpre & Hl & _ & _ & _ & Hnone & _);
    [vm_compute; reflexivity|].
  exists pre. split; [exact Hpre|].
  rewrite Hnone in Hl.
  - rewrite app_nil_r in Hl. split; [exact Hl|]. rewrite Hl. reflexivity.
  - intros ty. destruct ty; vm_compute; repeat constructor.
Defined.

Lemma stored_trace_describes_its_record_witness :
  xhrMap Demo.sentWorld !! 1%positive = Some Demo.sentDetails /\
  exists s,
    XRayTraceEvent.subsegments Demo.sentTrace = [s] /\
    Subsegment.name s = Demo.allowedUrl /\
    Http.request (Subsegment.http s) = Http.mkRequest "GET" true.
Proof.
  split; [vm_compute; reflexivity|].
  destruct (stored_trace_describes_its_record (H := Demo.utils)
              Demo.nativeOpen Demo.nativeSend
              (Demo.cfg false) true (Some (Session.mk true)) 1000
              [CallOpen 1 "GET" Demo.allowedUrl true; CallSend 1; Tick 5]
              1 Demo.sentDetails Demo.sentTrace)
    as (s & Hs & _ & Hname & Hreq & _);
    [vm_compute; reflexivity | reflexivity |].
  exists s. split; [exact Hs|]. split; [exact Hname | exact Hreq].
Defined.

Lemma network_error_message_carries_status_witness :
  let w := Demo.answered 404 "Not Found" "0" in
  xhrMap w !! 1%positive = Some Demo.sentDetails /\
  exists w' m,
    handleXhrErrorEvent 1 w = Return tt w' /\
    JS.parseInt m = JS.Int 404.
Proof.
  cbv zeta. split; [vm_compute; reflexivity|].
  destruct (network_error_message_carries_status
              (Demo.answered 404 "Not Found" "0") 1 Demo.sentDetails
              Demo.sentTrace Demo.sentSubsegment [])
    as (w' & d' & x' & s' & m & evs & Hrun & _ & _ & _ & _ & _ & _ & Hparse & _);
    [vm_compute; reflexivity | reflexivity | reflexivity |].
  exists w', m. split; [exact Hrun | exact Hparse].
Defined.
